(** * Inspector overlay: log interceptor and session controller

    Shallow embedding of [src/ts/index.ts].  The program is an event-driven
    page script: a module-level log interceptor (wrappers around the three
    console channels and two window listeners) and one [Inspector] object
    whose methods and handlers mutate the page, a panel element and the
    object's own fields.  Every handler runs to completion, so a handler is
    a function from worlds to worlds, or to a [Completion] where it may
    throw.

    The repository also keeps an earlier revision of the file, with two
    tabs and wrappers that have no guard on [undefined]; the embedding
    follows [src/ts/index.ts].  The host (document tree, style resolution,
    storage, clock, user-timing buffer, script evaluator) is modelled as
    far as the program reads and writes it. *)

From Stdlib Require Import ZArith List String Ascii Bool Lia DecimalString.
Import ListNotations.
Local Open Scope Z_scope.

(* ================================================================== *)
(** ** Strings and JavaScript values *)
(* ================================================================== *)

Infix "+++" := String.append (right associativity, at level 60).

(** The double quote character, for markup and JSON text. *)
Definition dq : string := String (ascii_of_nat 34) EmptyString.

(** [q s] is [s] between double quotes, as an attribute value is written. *)
Definition q (s : string) : string := dq +++ s +++ dq.

(** Decimal text of a number, as a template literal prints it.  Timestamps
    are counted in whole clock units. *)
Definition show (z : Z) : string := NilZero.string_of_int (Z.to_int z).

Fixpoint join (l : list string) : string :=
  match l with
  | [] => EmptyString
  | s :: r => s +++ join r
  end.

Inductive JsValue :=
| JUndefined
| JNull
| JBool (b : bool)
| JNumber (z : Z)
| JString (s : string)
| JObject (shown : string).   (* an object, with what its toString yields *)

(** [`${v}`]: the string conversion a template literal applies. *)
Definition toString (v : JsValue) : string :=
  match v with
  | JUndefined => "undefined"
  | JNull => "null"
  | JBool true => "true"
  | JBool false => "false"
  | JNumber z => show z
  | JString s => s
  | JObject shown => shown
  end.

(** [v === undefined] *)
Definition is_undefined (v : JsValue) : bool :=
  match v with JUndefined => true | _ => false end.

(* ================================================================== *)
(** ** Data model *)
(* ================================================================== *)

(** *** The log store, [let logs = { general, f }] *)

Record LogEntry := { ts : Z; data : JsValue }.

Inductive Channel := log | error | warn.

(** [general] is the array the wrappers push to.  [f] holds the original
    channels; they are observed through the calls they receive, in order. *)
Record Logs := { general : list LogEntry; f : list (Channel * JsValue) }.

(** *** The host's performance interface

    [clock] is the last reading of the monotonic clock.  Each reading
    advances it by the next element of [drift] (by nothing once [drift] is
    used up), so that any non-decreasing sequence of readings can occur.
    [timeline] is the user-timing buffer, oldest entry first. *)

Inductive EntryType := Mark | Measure.

Record PerformanceEntry :=
  { name : string; entryType : EntryType; startTime : Z; duration : Z }.

Record Performance :=
  { clock : Z; drift : list N; timeline : list PerformanceEntry }.

(** *** The page

    Nodes live in a store indexed by reference; a JavaScript reference
    always denotes a node, so the store is total.  [children] is the
    serialized content of the node. *)

Definition ElemRef := nat.

Inductive Parent := NoParent | DocumentParent | ElementParent (p : ElemRef).

Record Element :=
  { nodeName : string;
    attributes : list (string * string);
    children : string;
    parentNode : Parent;
    expando : list (string * string) }.

(** [replaced] lists, oldest first, the nodes that were replaced in the
    page together with the markup put in their place.  [data_mode] and
    [inspector_side_mode] are the two attributes of [documentElement] the
    program touches. *)
Record Document :=
  { nodes : ElemRef -> Element;
    replaced : list (ElemRef * string);
    data_mode : option string;
    inspector_side_mode : bool;
    cookie : string }.

(** What a script does, as far as the program is part of it: the calls it
    makes of the console channels, which are the wrappers by then, in
    order, and the value it throws when it does not return.  What else a
    script does to the page is the page's own. *)
Record Outcome := { said : list (Channel * JsValue); thrown : option JsValue }.

(** [getComputedStyle] is the style resolution of the host, [evaluate] its
    script evaluator. *)
Record Host :=
  { performance : Performance;
    document : Document;
    localStorage : list (string * string);
    sessionStorage : list (string * string);
    getComputedStyle : Element -> list (string * string);
    evaluate : string -> Outcome }.

(** *** The inspector object *)

Inductive Tab := display | console | storage | performance_tab.

(** The panel element [this.window]: its class list, its [side-mode]
    attribute, the two inline style properties the program writes, the
    markup last assigned to it, and whether its descendants carry the
    class [inspect.core]. *)
Record Window :=
  { classList : list string;
    side_mode : bool;
    style_left : string;
    style_top : string;
    innerHTML : string;
    core : bool }.

Record Inspector :=
  { active : bool;
    id : string;
    selected : option ElemRef;
    tab : Tab;
    window : Window }.

Record World := { logs : Logs; host : Host; this : Inspector }.

(** *** Field updates *)

Definition set_logs (l : Logs) (w : World) : World :=
  {| logs := l; host := host w; this := this w |}.

Definition set_host (h : Host) (w : World) : World :=
  {| logs := logs w; host := h; this := this w |}.

Definition set_this (i : Inspector) (w : World) : World :=
  {| logs := logs w; host := host w; this := i |}.

Definition set_performance (p : Performance) (h : Host) : Host :=
  {| performance := p; document := document h;
     localStorage := localStorage h; sessionStorage := sessionStorage h;
     getComputedStyle := getComputedStyle h; evaluate := evaluate h |}.

Definition set_document (d : Document) (h : Host) : Host :=
  {| performance := performance h; document := d;
     localStorage := localStorage h; sessionStorage := sessionStorage h;
     getComputedStyle := getComputedStyle h; evaluate := evaluate h |}.

Definition set_timeline (t : list PerformanceEntry) (p : Performance) : Performance :=
  {| clock := clock p; drift := drift p; timeline := t |}.

Definition set_window (win : Window) (i : Inspector) : Inspector :=
  {| active := active i; id := id i; selected := selected i; tab := tab i;
     window := win |}.

Definition set_tab (t : Tab) (i : Inspector) : Inspector :=
  {| active := active i; id := id i; selected := selected i; tab := t;
     window := window i |}.

(* ================================================================== *)
(** ** Completions: a handler returns or throws *)
(* ================================================================== *)

Inductive Completion (A : Type) :=
| Returned (a : A) (w : World)
| Threw (e : JsValue) (w : World).

Arguments Returned {A} a w.
Arguments Threw {A} e w.

Definition M (A : Type) := World -> Completion A.

Definition ret {A} (a : A) : M A := fun w => Returned a w.

Definition throw {A} (e : JsValue) : M A := fun w => Threw e w.

Definition bind {A B} (m : M A) (k : A -> M B) : M B :=
  fun w => match m w with
           | Returned a w' => k a w'
           | Threw e w' => Threw e w'
           end.

(** A statement that cannot throw. *)
Definition exec (g : World -> World) : M unit := fun w => Returned tt (g w).

Notation "x <- m ;; k" := (bind m (fun x => k))
  (at level 61, m at next level, right associativity).
Notation "m ;;; k" := (bind m (fun _ => k))
  (at level 61, right associativity).

(** The world a completion leaves behind. *)
Definition world_of {A} (c : Completion A) : World :=
  match c with Returned _ w => w | Threw _ w => w end.

(* ================================================================== *)
(** ** The performance interface of the host *)
(* ================================================================== *)

(** One reading of the clock. *)
Definition tick (p : Performance) : Performance :=
  {| clock := clock p + Z.of_N (hd 0%N (drift p));
     drift := tl (drift p);
     timeline := timeline p |}.

(** [performance.now()]: the reading and the world after it. *)
Definition performance_now (w : World) : Z * World :=
  let p := tick (performance (host w)) in
  (clock p, set_host (set_performance p (host w)) w).

(** A new entry goes to the end of the buffer. *)
Definition queue_entry (e : PerformanceEntry) (w : World) : World :=
  let p := performance (host w) in
  set_host (set_performance (set_timeline (timeline p ++ [e]) p) (host w)) w.

(** [performance.mark(n)] *)
Definition performance_mark (n : string) (w : World) : World :=
  let '(t, w') := performance_now w in
  queue_entry {| name := n; entryType := Mark; startTime := t; duration := 0 |} w'.

Definition is_mark (e : PerformanceEntry) : bool :=
  match entryType e with Mark => true | Measure => false end.

Definition is_measure (e : PerformanceEntry) : bool :=
  match entryType e with Mark => false | Measure => true end.

(** The start time of the most recent mark called [n], if there is one. *)
Fixpoint latest_mark (n : string) (t : list PerformanceEntry) : option Z :=
  match t with
  | [] => None
  | e :: r =>
      match latest_mark n r with
      | Some z => Some z
      | None => if is_mark e && String.eqb (name e) n then Some (startTime e) else None
      end
  end.

Definition SyntaxError (n : string) : JsValue :=
  JObject ("SyntaxError: The mark '" +++ n +++ "' does not exist.").

(** [performance.measure(n, startMark, endMark)]: throws when one of the
    marks is not in the buffer. *)
Definition performance_measure (n startMark endMark : string) : M unit :=
  fun w =>
    let t := timeline (performance (host w)) in
    match latest_mark startMark t with
    | None => Threw (SyntaxError startMark) w
    | Some s =>
        match latest_mark endMark t with
        | None => Threw (SyntaxError endMark) w
        | Some e =>
            Returned tt
              (queue_entry {| name := n; entryType := Measure;
                              startTime := s; duration := e - s |} w)
        end
    end.

(** Entries come back in the order of their start times; insertion keeps
    buffer order among equal start times. *)
Fixpoint insert_by_start (e : PerformanceEntry) (l : list PerformanceEntry) :=
  match l with
  | [] => [e]
  | x :: r => if startTime e <? startTime x then e :: l else x :: insert_by_start e r
  end.

Definition by_start (l : list PerformanceEntry) : list PerformanceEntry :=
  fold_left (fun acc e => insert_by_start e acc) l [].

(** [performance.getEntriesByName(n)] *)
Definition getEntriesByName (n : string) (w : World) : list PerformanceEntry :=
  by_start (filter (fun e => String.eqb (name e) n) (timeline (performance (host w)))).

Definition filter_timeline (keep : PerformanceEntry -> bool) (w : World) : World :=
  let p := performance (host w) in
  set_host (set_performance (set_timeline (filter keep (timeline p)) p) (host w)) w.

(** [performance.clearMarks()] and [performance.clearMeasures()] *)
Definition clearMarks : World -> World := filter_timeline (fun e => negb (is_mark e)).
Definition clearMeasures : World -> World := filter_timeline (fun e => negb (is_measure e)).

(* ================================================================== *)
(** ** The log interceptor (lines 7-60) *)
(* ================================================================== *)

(** [logs.f.<c>.apply(console, [data])] *)
Definition forward (c : Channel) (v : JsValue) (w : World) : World :=
  set_logs {| general := general (logs w); f := f (logs w) ++ [(c, v)] |} w.

(** [logs.general.push({ ts: performance.now(), data })] *)
Definition push (v : JsValue) (w : World) : World :=
  let '(t, w') := performance_now w in
  set_logs {| general := general (logs w') ++ [{| ts := t; data := v |}];
              f := f (logs w') |} w'.

(** The three wrappers differ only in the channel they forward to. *)
Definition wrapper (c : Channel) (v : JsValue) (w : World) : World :=
  if is_undefined v then w
  else push v (forward c v w).

Definition console_log := wrapper log.
Definition console_error := wrapper error.
Definition console_warn := wrapper warn.

(** The [unhandledrejection] listener, given [event.reason]. *)
Definition on_unhandledrejection (reason : JsValue) (w : World) : World := push reason w.

(** The [error] listener, given [event.error]. *)
Definition on_error (err : JsValue) (w : World) : World := push err w.

(* ================================================================== *)
(** ** Elements of the page *)
(* ================================================================== *)

Fixpoint getAttribute (k : string) (a : list (string * string)) : option string :=
  match a with
  | [] => None
  | (k', v) :: r => if String.eqb k' k then Some v else getAttribute k r
  end.

(** An attribute keeps its place when it is overwritten and is appended
    when it is new. *)
Fixpoint setAttribute (k v : string) (a : list (string * string)) : list (string * string) :=
  match a with
  | [] => [(k, v)]
  | (k', v') :: r => if String.eqb k' k then (k, v) :: r else (k', v') :: setAttribute k v r
  end.

Definition or_empty (o : option string) : string :=
  match o with Some s => s | None => EmptyString end.

(** The reflecting properties [element.id] and [element.className]. *)
Definition element_id (el : Element) : string := or_empty (getAttribute "id" (attributes el)).
Definition className (el : Element) : string := or_empty (getAttribute "class" (attributes el)).

Definition set_attributes (a : list (string * string)) (el : Element) : Element :=
  {| nodeName := nodeName el; attributes := a; children := children el;
     parentNode := parentNode el; expando := expando el |}.

Definition set_parentNode (p : Parent) (el : Element) : Element :=
  {| nodeName := nodeName el; attributes := attributes el; children := children el;
     parentNode := p; expando := expando el |}.

Definition set_expando (x : list (string * string)) (el : Element) : Element :=
  {| nodeName := nodeName el; attributes := attributes el; children := children el;
     parentNode := parentNode el; expando := x |}.

(** Replacement of characters by text, for the escapes below. *)
Fixpoint escape (sub : ascii -> option string) (s : string) : string :=
  match s with
  | EmptyString => EmptyString
  | String c r =>
      match sub c with
      | Some t => t +++ escape sub r
      | None => String c (escape sub r)
      end
  end.

Definition is_char (n : nat) (c : ascii) : bool := Nat.eqb (nat_of_ascii c) n.

(** Text content as markup: what [new Option(text).innerHTML] yields. *)
Definition escape_text : string -> string :=
  escape (fun c => if is_char 38 c then Some "&amp;"%string
                   else if is_char 60 c then Some "&lt;"%string
                   else if is_char 62 c then Some "&gt;"%string
                   else None).

Definition escape_attribute : string -> string :=
  escape (fun c => if is_char 38 c then Some "&amp;"%string
                   else if is_char 34 c then Some "&quot;"%string
                   else None).

Definition lower_char (c : ascii) : ascii :=
  let n := nat_of_ascii c in
  if (Nat.leb 65 n && Nat.leb n 90)%bool then ascii_of_nat (n + 32) else c.

Fixpoint lower (s : string) : string :=
  match s with
  | EmptyString => EmptyString
  | String c r => String (lower_char c) (lower r)
  end.

(** The getter of [element.outerHTML]: start tag with the attributes, the
    content, end tag. *)
Definition outerHTML (el : Element) : string :=
  "<" +++ lower (nodeName el)
      +++ join (map (fun kv => " " +++ fst kv +++ "=" +++ q (escape_attribute (snd kv)))
                    (attributes el))
      +++ ">" +++ children el +++ "</" +++ lower (nodeName el) +++ ">".

(** Class names are the tokens of the [class] attribute between white
    space. *)
Definition is_space (c : ascii) : bool :=
  is_char 32 c || is_char 9 c || is_char 10 c || is_char 12 c || is_char 13 c.

Fixpoint tokens_from (cur : string) (s : string) : list string :=
  match s with
  | EmptyString => match cur with EmptyString => [] | _ => [cur] end
  | String c r =>
      if is_space c
      then match cur with EmptyString => tokens_from EmptyString r
                     | _ => cur :: tokens_from EmptyString r end
      else tokens_from (cur +++ String c EmptyString) r
  end.

Definition tokens (s : string) : list string := tokens_from EmptyString s.

Definition contains (tok : string) (l : list string) : bool := existsb (String.eqb tok) l.

(** [classList.toggle(tok)] *)
Definition classList_toggle (tok : string) (l : list string) : list string :=
  if contains tok l then filter (fun c => negb (String.eqb c tok)) l else l ++ [tok].

(** *** Writing a property of a node: [(node as any)[dataName] = value] *)

Definition update (r : ElemRef) (el : Element) (st : ElemRef -> Element) : ElemRef -> Element :=
  fun r' => if Nat.eqb r' r then el else st r'.

Definition set_nodes (st : ElemRef -> Element) (d : Document) : Document :=
  {| nodes := st; replaced := replaced d; data_mode := data_mode d;
     inspector_side_mode := inspector_side_mode d; cookie := cookie d |}.

Definition set_replaced (l : list (ElemRef * string)) (d : Document) : Document :=
  {| nodes := nodes d; replaced := l; data_mode := data_mode d;
     inspector_side_mode := inspector_side_mode d; cookie := cookie d |}.

Definition set_data_mode (m : option string) (d : Document) : Document :=
  {| nodes := nodes d; replaced := replaced d; data_mode := m;
     inspector_side_mode := inspector_side_mode d; cookie := cookie d |}.

Definition set_inspector_side_mode (b : bool) (d : Document) : Document :=
  {| nodes := nodes d; replaced := replaced d; data_mode := data_mode d;
     inspector_side_mode := b; cookie := cookie d |}.

Definition write_node (r : ElemRef) (el : Element) (w : World) : World :=
  let d := document (host w) in
  set_host (set_document (set_nodes (update r el (nodes d)) d) (host w)) w.

Definition NoModificationAllowedError : JsValue :=
  JObject "NoModificationAllowedError: This element's parent is of type '#document', which is not an element node.".

(** The setter of [outerHTML] does not change the node it is called on: it
    parses the text and replaces the node with the result within the
    node's parent (DOM Parsing, the [outerHTML] setter), so the node leaves
    the page and a reference to it keeps denoting the node as it was.
    Without a parent nothing happens; under the document itself the setter
    throws. *)
Definition set_outerHTML (r : ElemRef) (value : string) : M unit :=
  fun w =>
    let d := document (host w) in
    match parentNode (nodes d r) with
    | NoParent => Returned tt w
    | DocumentParent => Threw NoModificationAllowedError w
    | ElementParent _ =>
        let st := update r (set_parentNode NoParent (nodes d r)) (nodes d) in
        Returned tt
          (set_host (set_document
                       (set_replaced (replaced d ++ [(r, value)]) (set_nodes st d))
                       (host w)) w)
    end.

(** [id] and [className] reflect the attributes of the same content;
    [outerHTML] has the setter above; any other name (the template passes
    the empty one for its read-only fields) is an own property of the
    object. *)
Definition set_property (r : ElemRef) (dataName value : string) : M unit :=
  fun w =>
    let el := nodes (document (host w)) r in
    if String.eqb dataName "id" then
      Returned tt (write_node r (set_attributes (setAttribute "id" value (attributes el)) el) w)
    else if String.eqb dataName "className" then
      Returned tt (write_node r (set_attributes (setAttribute "class" value (attributes el)) el) w)
    else if String.eqb dataName "outerHTML" then
      set_outerHTML r value w
    else
      Returned tt (write_node r (set_expando (setAttribute dataName value (expando el)) el) w).

(* ================================================================== *)
(** ** [JSON.stringify] on objects whose values are strings *)
(* ================================================================== *)

Definition hex_digit (n : nat) : string :=
  String (ascii_of_nat (if Nat.ltb n 10 then 48 + n else 87 + n)) EmptyString.

Definition backslash : string := String (ascii_of_nat 92) EmptyString.

Definition json_escape : string -> string :=
  escape (fun c =>
            let n := nat_of_ascii c in
            if Nat.eqb n 34 then Some (backslash +++ dq)
            else if Nat.eqb n 92 then Some (backslash +++ backslash)
            else if Nat.eqb n 8 then Some (backslash +++ "b")
            else if Nat.eqb n 12 then Some (backslash +++ "f")
            else if Nat.eqb n 10 then Some (backslash +++ "n")
            else if Nat.eqb n 13 then Some (backslash +++ "r")
            else if Nat.eqb n 9 then Some (backslash +++ "t")
            else if Nat.ltb n 32
                 then Some (backslash +++ "u00" +++ hex_digit (Nat.div n 16) +++ hex_digit (Nat.modulo n 16))
                 else None).

Definition json_string (s : string) : string := q (json_escape s).

Fixpoint json_members (l : list (string * string)) : string :=
  match l with
  | [] => EmptyString
  | [(k, v)] => json_string k +++ ":" +++ json_string v
  | (k, v) :: r => json_string k +++ ":" +++ json_string v +++ "," +++ json_members r
  end.

Definition JSON_stringify (l : list (string * string)) : string :=
  "{" +++ json_members l +++ "}".

(* ================================================================== *)
(** ** The panel's markup (lines 423-568)

    The template literal of [inspectElement], piece by piece.  Each run of
    white space of the template is written as one space. *)
(* ================================================================== *)

Definition newline : string := String (ascii_of_nat 10) EmptyString.

(** The loop over the computed style: one [name: value;] line each. *)
Definition style_text (computed : list (string * string)) : string :=
  fold_left (fun style kv => style +++ fst kv +++ ": " +++ snd kv +++ ";" +++ newline)
            computed EmptyString.

(** The loop over [logs.general]. *)
Definition logs_markup (l : list LogEntry) : string :=
  fold_left (fun _logs e =>
               _logs +++ "<div class=" +++ q "inspect.element" +++ ">{" +++ show (ts e)
                     +++ "} " +++ toString (data e) +++ "</div>")
            l EmptyString.

(** [window['<id>'].<fn>(event, '<arg>')] between quotes. *)
Definition call (id fn arg : string) : string :=
  q ("window['" +++ id +++ "']." +++ fn +++ "(event, '" +++ arg +++ "')").

Definition tab_button (id t here label : string) : string :=
  "<button onclick=" +++ call id "sp" here +++ " class="
    +++ q ("inspect.element.tab " +++ (if String.eqb t here then "active" else EmptyString))
    +++ ">" +++ label +++ "</button>".

(** Everything above the tab slot. *)
Definition frame (id t : string) (el : Element) (side : bool) : string :=
  " <!-- primary window --> <h2>" +++ nodeName el +++ " #" +++ element_id el +++ " ."
    +++ className el +++ "</h2> <p>Press ESCAPE to disable.</p><br> <!-- tabs --> <div class="
    +++ q "inspect.element" +++ " style="
    +++ q "display: flex; flex-wrap: wrap; justify-content: center;" +++ "> "
    +++ tab_button id t "display" "Display" +++ " "
    +++ tab_button id t "console" "Console" +++ " "
    +++ tab_button id t "storage" "Storage" +++ " "
    +++ tab_button id t "performance" "Performance" +++ " "
    +++ "<button onclick=" +++ call id "sp" "reload" +++ " class=" +++ q "inspect.element.tab"
    +++ ">Refresh</button> </div> <!-- extra menu --> <div class=" +++ q "inspect.element"
    +++ ">Side Mode: <input type=" +++ q "checkbox" +++ " rows=" +++ q "5" +++ " cols=" +++ q "35"
    +++ " onchange=" +++ call id "sp" "sideMode" +++ " "
    +++ (if side then "checked" else EmptyString) +++ "> </div> <!-- tab --> ".

Definition textarea (id fn arg : string) (disabled : bool) (body : string) : string :=
  "<textarea rows=" +++ q "5" +++ " cols=" +++ q "35" +++ " onchange=" +++ call id fn arg
    +++ (if disabled then " disabled" else EmptyString) +++ "> " +++ body +++ " </textarea>".

Definition row (body : string) : string :=
  "<div class=" +++ q "inspect.element" +++ ">" +++ body +++ "</div>".

Definition display_view (id : string) (el : Element) (computed : list (string * string)) : string :=
  " <!-- display tab --> " +++ row ("nodeName: " +++ nodeName el) +++ " "
    +++ row ("ID: <input onchange=" +++ call id "ch" "id" +++ " value=" +++ q (element_id el) +++ "> ")
    +++ " "
    +++ row ("className: <input onchange=" +++ call id "ch" "className" +++ " value="
               +++ q (className el) +++ "> ")
    +++ " "
    +++ row ("outerHTML: " +++ textarea id "ch" "outerHTML" false (escape_text (outerHTML el)) +++ " ")
    +++ " "
    +++ row ("computed: " +++ textarea id "ch" EmptyString true (style_text computed) +++ " ").

Definition console_view (id : string) (l : list LogEntry) : string :=
  " <!-- console tab --> " +++ logs_markup l +++ " "
    +++ row ("Run JavaScript: <textarea rows=" +++ q "5" +++ " cols=" +++ q "35" +++ " onchange="
               +++ call id "sp" "runjs" +++ "></textarea> ")
    +++ " ".

Definition storage_view (id : string) (local session : list (string * string)) (cookie : string)
  : string :=
  " <!-- storage tab --> "
    +++ row ("localStorage: " +++ textarea id "ch" EmptyString true (JSON_stringify local) +++ " ")
    +++ " "
    +++ row ("sessionStorage: " +++ textarea id "ch" EmptyString true (JSON_stringify session) +++ " ")
    +++ " "
    +++ row ("cookie: " +++ textarea id "ch" EmptyString true cookie +++ " ").

(** [marked] is [performance.getEntriesByName("ins-mark").length !== 0]. *)
Definition performance_view (id : string) (marked : bool) : string :=
  " <!-- performance tab --> "
    +++ row (" <b>Timestamp Configuration</b> "
               +++ (if marked
                    then "Mark already active! Click " +++ q "Stamp" +++ " below to end and measure mark."
                    else EmptyString) +++ " ")
    +++ " "
    +++ row (" <button onclick=" +++ call id "sp" "mark" +++ ">Mark</button> <button onclick="
               +++ call id "sp" "stamp" +++ ">Stamp</button> ")
    +++ " ".

(** What the template needs besides [this.id] and [this.tab]. *)
Record View :=
  { element : Element;
    computed : list (string * string);
    entries : list LogEntry;
    local : list (string * string);
    session : list (string * string);
    cookies : string;
    side : bool;
    marked : bool }.

(** The conditional chain that fills the tab slot; [t] is the value of
    [this.tab] as the comparisons see it.  The last alternative is
    [undefined], which the template prints as text. *)
Definition tab_slot (id t : string) (v : View) : string :=
  if String.eqb t "display" then display_view id (element v) (computed v)
  else if String.eqb t "console" then console_view id (entries v)
  else if String.eqb t "storage" then storage_view id (local v) (session v) (cookies v)
  else if String.eqb t "performance" then performance_view id (marked v)
  else toString JUndefined.

Definition render (id t : string) (v : View) : string :=
  frame id t (element v) (side v) +++ tab_slot id t v.

(** The value of a [Tab] at run time. *)
Definition tab_name (t : Tab) : string :=
  match t with
  | display => "display"
  | console => "console"
  | storage => "storage"
  | performance_tab => "performance"
  end.

(* ================================================================== *)
(** ** The inspector (lines 65-577) *)
(* ================================================================== *)

(** A coordinate is [None] where the event has none: a [change] event
    carries no [pageX] or [pageY]. *)
Record Position := { x : option Z; y : option Z }.

(** What the handlers read of an event: the page node it was dispatched at,
    [event.target.value], the pointer coordinates and the key. *)
Record Event :=
  { target : ElemRef;
    value : string;
    pageX : option Z;
    pageY : option Z;
    key : string }.

Definition at_pointer (ev : Event) : Position := {| x := pageX ev; y := pageY ev |}.

(** [new Inspector()] on a page [h] with log store [l]; [uuid] is the
    host's random identifier.  The style sheet and the shadow root the
    constructor sets up are never read again and have no place in the
    world.  The panel starts with the classes
    [inspect.window inspect.core off]; the last two statements of the
    constructor toggle both side-mode attributes. *)
Definition construct (uuid : string) (l : Logs) (h : Host) : World :=
  {| logs := l;
     host := set_document
               (set_inspector_side_mode (negb (inspector_side_mode (document h))) (document h)) h;
     this := {| active := false;
                id := "inspector-" +++ uuid;
                selected := None;
                tab := display;
                window := {| classList := ["inspect.window"; "inspect.core"; "off"]%string;
                             side_mode := true;
                             style_left := EmptyString;
                             style_top := EmptyString;
                             innerHTML := EmptyString;
                             core := false |} |} |}.

(** The page right after the script has loaded and the inspector was made. *)
Definition initial (uuid : string) (h : Host) : World :=
  construct uuid {| general := []; f := [] |} h.

(** *** [toggle] (lines 387-402) *)

Definition is_inspect (m : option string) : bool :=
  match m with Some s => String.eqb s "inspect" | None => false end.

Definition toggle (w : World) : World :=
  let d := document (host w) in
  let i := this w in
  let win := window i in
  {| logs := logs w;
     host := set_document
               (set_inspector_side_mode (negb (inspector_side_mode d))
                  (set_data_mode (if is_inspect (data_mode d) then None else Some "inspect"%string) d))
               (host w);
     this := {| active := negb (active i);
                id := id i;
                selected := selected i;
                tab := tab i;
                window := {| classList := classList_toggle "off" (classList win);
                             side_mode := negb (side_mode win);
                             style_left := style_left win;
                             style_top := style_top win;
                             innerHTML := innerHTML win;
                             core := core win |} |} |}.

(** *** [inspectElement] (lines 412-576) *)

(** A style property set to a number of pixels.  Without a coordinate the
    text is [undefinedpx], which is no length: the style keeps its value. *)
Definition set_px (v : option Z) (old : string) : string :=
  match v with
  | Some z => show z +++ "px"
  | None => old
  end.

Definition view_of (el : ElemRef) (w : World) : View :=
  let h := host w in
  {| element := nodes (document h) el;
     computed := getComputedStyle h (nodes (document h) el);
     entries := general (logs w);
     local := localStorage h;
     session := sessionStorage h;
     cookies := cookie (document h);
     side := side_mode (window (this w));
     marked := negb (Nat.eqb (List.length (getEntriesByName "ins-mark" w)) 0) |}.

(** The loop that clears the handlers of the old descendants acts on nodes
    the assignment to [innerHTML] discards; the last loop gives every new
    descendant the class [inspect.core]. *)
Definition inspectElement (el : ElemRef) (position : Position) (w : World) : World :=
  if negb (active (this w)) then w
  else
    let i := this w in
    let win := window i in
    set_this
      {| active := active i;
         id := id i;
         selected := Some el;
         tab := tab i;
         window := {| classList := classList win;
                      side_mode := side_mode win;
                      style_left := set_px (x position) (style_left win);
                      style_top := set_px (y position) (style_top win);
                      innerHTML := render (id i) (tab_name (tab i)) (view_of el w);
                      core := true |} |} w.

(** *** The listeners of the constructor (lines 234-255)

    [event.preventDefault()] only keeps the browser's own menu away. *)

Definition on_contextmenu (ev : Event) (w : World) : World :=
  let el := nodes (document (host w)) (target ev) in
  if negb (active (this w))
     || contains "inspect.core" (tokens (className el))
     || String.eqb (element_id el) (id (this w))
  then w
  else inspectElement (target ev) (at_pointer ev) w.

Definition on_keydown (ev : Event) (w : World) : World :=
  if negb (active (this w)) then w
  else if String.eqb (key ev) "Escape" then toggle w
  else w.

(** *** [ch] (lines 267-278) *)

Definition ch (ev : Event) (dataName : string) : M unit :=
  fun w =>
    match selected (this w) with
    | None => Returned tt w
    | Some sel =>
        (set_property sel dataName (value ev) ;;;
         exec (inspectElement sel (at_pointer ev))) w
    end.

(** *** [sp] (lines 287-374) *)

Definition toggle_side_mode (w : World) : World :=
  let d := document (host w) in
  let win := window (this w) in
  {| logs := logs w;
     host := set_document (set_inspector_side_mode (negb (inspector_side_mode d)) d) (host w);
     this := set_window {| classList := classList win;
                           side_mode := negb (side_mode win);
                           style_left := style_left win;
                           style_top := style_top win;
                           innerHTML := innerHTML win;
                           core := core win |} (this w) |}.

Definition select_tab (t : Tab) (w : World) : World := set_this (set_tab t (this w)) w.

(** The calls of the wrapped channels a script makes. *)
Definition console_calls (l : list (Channel * JsValue)) (w : World) : World :=
  fold_left (fun w' cv => wrapper (fst cv) (snd cv) w') l w.

(** [new Function(`(() => { ${value} })();`)()]: the script runs here,
    inside [sp]; it returns or throws after what it said. *)
Definition run_script (value : string) : M unit :=
  fun w =>
    let o := evaluate (host w) ("(() => { " +++ value +++ " })();") in
    match thrown o with
    | None => Returned tt (console_calls (said o) w)
    | Some e => Threw e (console_calls (said o) w)
    end.

Definition stamp_result (r : PerformanceEntry) : string :=
  "STAMP RESULT: "
    +++ JSON_stringify [("start"%string, show (startTime r) +++ "ms");
                        ("duration"%string, show (duration r) +++ "ms")].

Definition TypeError : JsValue :=
  JObject "TypeError: Cannot read properties of undefined (reading 'startTime')".

(** [console.log(`STAMP RESULT: ...`)] on [results[0]]. *)
Definition log_results (results : list PerformanceEntry) : M unit :=
  match results with
  | [] => throw TypeError
  | r :: _ => exec (console_log (JString (stamp_result r)))
  end.

(** The [switch] on [dataName]. *)
Definition special (ev : Event) (dataName : string) : M unit :=
  if String.eqb dataName "sideMode" then exec toggle_side_mode
  else if String.eqb dataName "display" then exec (select_tab display)
  else if String.eqb dataName "console" then exec (select_tab console)
  else if String.eqb dataName "storage" then exec (select_tab storage)
  else if String.eqb dataName "performance" then exec (select_tab performance_tab)
  else if String.eqb dataName "runjs" then
    exec (console_log (JString ("~> " +++ value ev))) ;;;
    run_script (value ev)
  else if String.eqb dataName "mark" then exec (performance_mark "ins-mark")
  else if String.eqb dataName "stamp" then
    exec (performance_mark "ins-end-mark") ;;;
    performance_measure "ins-s-to-e-measure" "ins-mark" "ins-end-mark" ;;;
    (fun w => log_results (getEntriesByName "ins-s-to-e-measure" w) w) ;;;
    exec clearMarks ;;;
    exec clearMeasures ;;;
    exec (select_tab console)
  else ret tt.

(** Nothing in the [switch] assigns [this.selected], so the element
    inspected again is the one the guard saw. *)
Definition sp (ev : Event) (dataName : string) : M unit :=
  fun w =>
    match selected (this w) with
    | None => Returned tt w
    | Some sel =>
        (special ev dataName ;;;
         exec (inspectElement sel (at_pointer ev))) w
    end.

(* ================================================================== *)
(** ** Traces of page activity *)
(* ================================================================== *)

(** An exception that leaves a handler is reported to the window, where
    the [error] listener of the interceptor logs it. *)
Definition dispatch (m : M unit) (w : World) : World :=
  match m w with
  | Returned _ w' => w'
  | Threw e w' => on_error e w'
  end.

Inductive Op :=
| ConsoleCall (c : Channel) (v : JsValue)
| UnhandledRejection (reason : JsValue)
| ErrorEvent (err : JsValue)
| Toggle
| InspectElement (el : ElemRef) (position : Position)
| ContextMenu (ev : Event)
| KeyDown (ev : Event)
| Ch (ev : Event) (dataName : string)
| Sp (ev : Event) (dataName : string).

Definition step (w : World) (o : Op) : World :=
  match o with
  | ConsoleCall c v => wrapper c v w
  | UnhandledRejection reason => on_unhandledrejection reason w
  | ErrorEvent err => on_error err w
  | Toggle => toggle w
  | InspectElement el position => inspectElement el position w
  | ContextMenu ev => on_contextmenu ev w
  | KeyDown ev => on_keydown ev w
  | Ch ev dataName => dispatch (ch ev dataName) w
  | Sp ev dataName => dispatch (sp ev dataName) w
  end.

Definition run (ops : list Op) (w : World) : World := fold_left step ops w.

(* ================================================================== *)
(** ** A small page to run the program on *)
(* ================================================================== *)

Module Sample.

Definition html : Element :=
  {| nodeName := "HTML"; attributes := []; children := "<body></body>";
     parentNode := DocumentParent; expando := [] |}.

Definition body : Element :=
  {| nodeName := "BODY"; attributes := []; children := "<div id=foo></div>";
     parentNode := ElementParent 0%nat; expando := [] |}.

Definition foo : Element :=
  {| nodeName := "DIV"; attributes := [("id", "foo"); ("class", "box")]%string;
     children := "hello"; parentNode := ElementParent 1%nat; expando := [] |}.

(** Reference 0 is the root, 1 the body, every other one the [div]. *)
Definition store (r : ElemRef) : Element :=
  match r with
  | O => html
  | S O => body
  | _ => foo
  end.

Definition page : Host :=
  {| performance := {| clock := 100; drift := [5; 3; 7; 2; 1; 4]%N; timeline := [] |};
     document := {| nodes := store; replaced := []; data_mode := None;
                    inspector_side_mode := false; cookie := "k=v" |};
     localStorage := [("theme", "dark")]%string;
     sessionStorage := [];
     getComputedStyle := fun el => [("display", "block")]%string;
     evaluate := fun text =>
                   if String.eqb text "(() => { console.log('x') })();"
                   then {| said := [(log, JString "x")]; thrown := None |}
                   else if String.eqb text "(() => { console.warn('w'); throw 1 })();"
                        then {| said := [(warn, JString "w")]; thrown := Some (JNumber 1) |}
                        else {| said := []; thrown := None |} |}.

Definition click (px py : Z) : Event :=
  {| target := 2%nat; value := EmptyString; pageX := Some px; pageY := Some py;
     key := EmptyString |}.

(** A [change] event of a panel field holding [text]. *)
Definition change (text : string) : Event :=
  {| target := 2%nat; value := text; pageX := None; pageY := None; key := EmptyString |}.

Definition escape_key : Event :=
  {| target := 0%nat; value := EmptyString; pageX := None; pageY := None; key := "Escape" |}.

(** The same page with a [data-mode] of its own on the root. *)
Definition themed : Host :=
  set_document (set_data_mode (Some "dark"%string) (document page)) page.

(** The inspector switched on, with the [div] under inspection. *)
Definition inspecting : World :=
  run [Toggle; ContextMenu (click 10 20)] (initial "u" page).

(** The same with the performance tab open. *)
Definition timing : World :=
  run [Sp (click 1 2) "performance"] inspecting.

(** The same with the performance tab open and a mark placed. *)
Definition marking : World :=
  run [Sp (click 1 2) "performance"; Sp (click 1 2) "mark"] inspecting.

(** The console tab open, and a message logged since it was rendered. *)
Definition logged : World :=
  run [Sp (click 1 2) "console"; ConsoleCall warn (JString "late")] inspecting.

End Sample.

(* ================================================================== *)
(** ** Vocabulary of the properties *)
(* ================================================================== *)

(** [m] keeps [P]: whatever way [m] ends, [P] still holds. *)
Definition stable {A} (P : World -> Prop) (m : M A) : Prop :=
  forall w, P w -> P (world_of (m w)).

(** The last reading of the clock. *)
Definition now (w : World) : Z := clock (performance (host w)).

(** Each number is at most the next. *)
Fixpoint nondecreasing (l : list Z) : Prop :=
  match l with
  | a :: r => match r with
              | b :: _ => a <= b /\ nondecreasing r
              | [] => True
              end
  | [] => True
  end.

(** Time stamps are in order and none is ahead of the clock. *)
Definition timely (w : World) : Prop :=
  nondecreasing (map ts (general (logs w)))
  /\ Forall (fun e => ts e <= now w) (general (logs w)).

(** A payload other than [undefined]. *)
Definition defined (v : JsValue) : bool := negb (is_undefined v).

(** A sequence of calls to the wrapped channels, as a trace. *)
Definition calls (l : list (Channel * JsValue)) : list Op :=
  map (fun cv => ConsoleCall (fst cv) (snd cv)) l.

(** The panel is rendered when its class list has no [off]
    (the style sheet hides [.inspect\.window.off]). *)
Definition rendered (w : World) : bool := negb (contains "off" (classList (window (this w)))).

(** The invariant of activation: rendered exactly while [active]. *)
Definition shown (w : World) : Prop := rendered w = active (this w).

(** The tags the [switch] of [sp] has a case for. *)
Definition recognized : list string :=
  ["sideMode"; "display"; "console"; "storage"; "performance"; "runjs"; "mark"; "stamp"]%string.

(** The world a [stamp] leaves when [results[0]] is [r]. *)
Definition stamped (ev : Event) (sel : ElemRef) (r : PerformanceEntry) (w : World) : World :=
  inspectElement sel (at_pointer ev)
    (select_tab console
       (clearMeasures (clearMarks (console_log (JString (stamp_result r)) w)))).

(** The four things C5 names: the current tab, the element (with its
    computed style), the log sequence and the storage areas. *)
Definition named_inputs (el : ElemRef) (w : World) :=
  (tab (this w),
   (element (view_of el w), computed (view_of el w)),
   entries (view_of el w),
   (local (view_of el w), session (view_of el w), cookies (view_of el w))).

(** The markup [inspectElement] gives the panel. *)
Definition markup (el : ElemRef) (position : Position) (w : World) : string :=
  innerHTML (window (this (inspectElement el position w))).

(** [needle] occurs in [hay]. *)
Definition mentions (needle hay : string) : Prop :=
  exists before after, hay = before +++ needle +++ after.

(** One row of the console tab, as the loop over [logs.general] writes it. *)
Definition log_row (e : LogEntry) : string :=
  "<div class=" +++ q "inspect.element" +++ ">{" +++ show (ts e) +++ "} "
    +++ toString (data e) +++ "</div>".

(** One line of the computed-style dump. *)
Definition style_line (kv : string * string) : string :=
  fst kv +++ ": " +++ snd kv +++ ";" +++ newline.

(** Clicks on the tab buttons, as a trace. *)
Definition switches (l : list (Event * Tab)) : list Op :=
  map (fun et => Sp (fst et) (tab_name (snd et))) l.

(** The inspect-mode marker of the document root says what [active] says. *)
Definition marker_tracks_active (w : World) : Prop :=
  is_inspect (data_mode (document (host w))) = active (this w).

(** The [side-mode] attribute of the panel and the [inspector-side-mode]
    attribute of the document root are both there or both absent. *)
Definition side_modes_agree (w : World) : Prop :=
  side_mode (window (this w)) = inspector_side_mode (document (host w)).

(** What the storage tab shows. *)
Definition stored (w : World) : list (string * string) * list (string * string) * string :=
  (localStorage (host w), sessionStorage (host w), cookie (document (host w))).

(* ================================================================== *)
(** ** The earlier revision of the file

    The repository keeps an earlier state of [index.ts] (the second source
    file).  It has the same fields; its [tab] takes two of the values, its
    wrappers have no guard, [toggle] leaves the side-mode attributes alone
    and [sp] knows three tags.  Its panel is an element of the page itself,
    within reach of its own [contextmenu] listener, whose only guard is
    [active]; the listeners and [ch] of that revision are not embedded
    here, where the panel is kept apart from the nodes of the page. *)
(* ================================================================== *)

Module Earlier.

(** The wrappers (lines 18-40): forward, then push, whatever the payload. *)
Definition wrapper (c : Channel) (v : JsValue) (w : World) : World :=
  push v (forward c v w).

(** The constructor (lines 72-224): the panel is
    [<div class="inspect.window off">]; nothing is toggled. *)
Definition construct (uuid : string) (l : Logs) (h : Host) : World :=
  {| logs := l;
     host := h;
     this := {| active := false;
                id := "inspector-" +++ uuid;
                selected := None;
                tab := display;
                window := {| classList := ["inspect.window"; "off"]%string;
                             side_mode := false;
                             style_left := EmptyString;
                             style_top := EmptyString;
                             innerHTML := EmptyString;
                             core := false |} |} |}.

(** [toggle] (lines 231-242) *)
Definition toggle (w : World) : World :=
  let d := document (host w) in
  let i := this w in
  let win := window i in
  {| logs := logs w;
     host := set_document
               (set_data_mode (if is_inspect (data_mode d) then None else Some "inspect"%string) d)
               (host w);
     this := {| active := negb (active i);
                id := id i;
                selected := selected i;
                tab := tab i;
                window := {| classList := classList_toggle "off" (classList win);
                             side_mode := side_mode win;
                             style_left := style_left win;
                             style_top := style_top win;
                             innerHTML := innerHTML win;
                             core := core win |} |} |}.

(** The template (lines 278-353), white space written as in [render]. *)
Definition button (id here label : string) : string :=
  "<button onclick=" +++ call id "sp" here +++ ">" +++ label +++ "</button>".

Definition frame (id : string) (el : Element) : string :=
  "<h2>" +++ nodeName el +++ " #" +++ element_id el +++ " ." +++ className el
    +++ "</h2> <p>Press ESCAPE to disable.</p><br> <!-- tabs --> <div class="
    +++ q "inspect.element" +++ "> "
    +++ button id "display" "Display" +++ " "
    +++ button id "console" "Console" +++ " "
    +++ button id "reload" "Refresh" +++ " </div> <!-- tab --> ".

Definition display_view (id : string) (v : View) : string :=
  " <!-- display tab --> " +++ row ("nodeName: " +++ nodeName (element v)) +++ " "
    +++ row ("ID: <input onchange=" +++ call id "ch" "id" +++ " value="
               +++ q (element_id (element v)) +++ "> ")
    +++ " "
    +++ row ("className: <input onchange=" +++ call id "ch" "className" +++ " value="
               +++ q (className (element v)) +++ "> ")
    +++ " "
    +++ row ("outerHTML: "
               +++ textarea id "ch" "outerHTML" false (escape_text (outerHTML (element v))) +++ " ")
    +++ " "
    +++ row ("computed: " +++ textarea id "ch" EmptyString true (style_text (computed v)) +++ " ")
    +++ " "
    +++ row ("localStorage: "
               +++ textarea id "ch" EmptyString true (JSON_stringify (local v)) +++ " ")
    +++ " "
    +++ row ("sessionStorage: "
               +++ textarea id "ch" EmptyString true (JSON_stringify (session v)) +++ " ")
    +++ " "
    +++ row ("Side Mode: <input type=" +++ q "checkbox" +++ " rows=" +++ q "5" +++ " cols="
               +++ q "35" +++ " onchange=" +++ call id "sp" "sideMode" +++ " "
               +++ (if side v then "checked" else EmptyString) +++ "> ").

Definition console_view (l : list LogEntry) : string :=
  " <!-- console tab --> " +++ logs_markup l +++ " ".

Definition tab_slot (id t : string) (v : View) : string :=
  if String.eqb t "display" then display_view id v
  else if String.eqb t "console" then console_view (entries v)
  else toString JUndefined.

Definition render (id t : string) (v : View) : string :=
  frame id (element v) +++ tab_slot id t v.

(** [inspectElement] (lines 252-356) *)
Definition inspectElement (el : ElemRef) (position : Position) (w : World) : World :=
  if negb (active (this w)) then w
  else
    let i := this w in
    let win := window i in
    set_this
      {| active := active i;
         id := id i;
         selected := Some el;
         tab := tab i;
         window := {| classList := classList win;
                      side_mode := side_mode win;
                      style_left := set_px (x position) (style_left win);
                      style_top := set_px (y position) (style_top win);
                      innerHTML := render (id i) (tab_name (tab i)) (view_of el w);
                      core := core win |} |} w.

(** [sp] (lines 204-222): a chain of three comparisons. *)
Definition sp (ev : Event) (dataName : string) (w : World) : World :=
  match selected (this w) with
  | None => w
  | Some sel =>
      inspectElement sel (at_pointer ev)
        (if String.eqb dataName "sideMode" then toggle_side_mode w
         else if String.eqb dataName "display" then select_tab display w
         else if String.eqb dataName "console" then select_tab console w
         else w)
  end.

End Earlier.

(* ================================================================== *)
(** ** Properties kept by handlers *)
(* ================================================================== *)

Lemma stable_ret {A} (P : World -> Prop) (a : A) : stable P (ret a).
Proof. intros w H; exact H. Qed.

Lemma stable_throw {A} (P : World -> Prop) (e : JsValue) : stable P (@throw A e).
Proof. intros w H; exact H. Qed.

Lemma stable_exec (P : World -> Prop) (g : World -> World) :
  (forall w, P w -> P (g w)) -> stable P (exec g).
Proof. intros Hg w H; apply Hg, H. Qed.

Lemma stable_bind {A B} (P : World -> Prop) (m : M A) (k : A -> M B) :
  stable P m -> (forall a, stable P (k a)) -> stable P (bind m k).
Proof.
  intros Hm Hk w H. unfold bind.
  specialize (Hm w H). destruct (m w) as [a w' | e w']; simpl in *.
  - apply Hk, Hm.
  - exact Hm.
Qed.

Lemma stable_dispatch (P : World -> Prop) (m : M unit) :
  stable P m -> (forall e w, P w -> P (on_error e w)) ->
  forall w, P w -> P (dispatch m w).
Proof.
  intros Hm He w H. unfold dispatch.
  specialize (Hm w H). destruct (m w) as [a w' | e w']; simpl in *; auto.
Qed.

Lemma run_app (ops ops' : list Op) (w : World) :
  run (ops ++ ops') w = run ops' (run ops w).
Proof. apply fold_left_app. Qed.

Lemma run_snoc (ops : list Op) (o : Op) (w : World) :
  run (ops ++ [o]) w = step (run ops w) o.
Proof. apply run_app. Qed.

(** A property kept by every step holds along every trace. *)
Lemma run_invariant (P : World -> Prop) :
  (forall w o, P w -> P (step w o)) ->
  forall ops w, P w -> P (run ops w).
Proof.
  intros Hstep ops. induction ops as [| o ops IH]; intros w H; simpl.
  - exact H.
  - apply IH, Hstep, H.
Qed.

Lemma tick_later (p : Performance) : clock p <= clock (tick p).
Proof. unfold tick; simpl. lia. Qed.

(** Splits a handler into its statements. *)
Ltac statements :=
  repeat match goal with
         | |- stable _ (ret _) => apply stable_ret
         | |- stable _ (throw _) => apply stable_throw
         | |- stable _ (bind _ _) => apply stable_bind; [| intros _]
         | |- stable _ (exec _) => apply stable_exec
         end.

Create HintDb kept.

(** *** Properties of the log, the clock, the flag and the class list

    Two of the properties below are of this kind.  Such a property can
    only be broken by [push], which extends the log, or by [toggle], which
    flips the flag and the class: every other statement of the program
    leaves the four alone, or lets the clock go on. *)

Section Kept.

Variable P : World -> Prop.

Hypothesis P_frame :
  forall w w' : World,
    general (logs w') = general (logs w) ->
    now w <= now w' ->
    active (this w') = active (this w) ->
    classList (window (this w')) = classList (window (this w)) ->
    P w -> P w'.

Hypothesis P_push : forall (v : JsValue) (w : World), P w -> P (push v w).

Hypothesis P_toggle : forall w : World, P w -> P (toggle w).

(** Closes a goal [P w'] where [w'] differs from [w] outside the four. *)
Ltac framed H := eapply P_frame; [| | | | exact H]; reflexivity.

Lemma kept_wrapper (c : Channel) (v : JsValue) (w : World) : P w -> P (wrapper c v w).
Proof.
  intros H. unfold wrapper. destruct (is_undefined v); [exact H |].
  apply P_push. framed H.
Qed.

Lemma kept_inspectElement (el : ElemRef) (position : Position) (w : World) :
  P w -> P (inspectElement el position w).
Proof.
  intros H. unfold inspectElement. destruct (negb (active (this w))); [exact H |].
  framed H.
Qed.

Lemma kept_on_contextmenu (ev : Event) (w : World) : P w -> P (on_contextmenu ev w).
Proof.
  unfold on_contextmenu. destruct (_ || _ || _); [auto | apply kept_inspectElement].
Qed.

Lemma kept_on_keydown (ev : Event) (w : World) : P w -> P (on_keydown ev w).
Proof.
  unfold on_keydown. destruct (negb _); [auto |].
  destruct (String.eqb _ _); [apply P_toggle | auto].
Qed.

Lemma kept_set_property (r : ElemRef) (dataName v : string) :
  stable P (set_property r dataName v).
Proof.
  intros w H. unfold set_property, set_outerHTML.
  repeat match goal with
         | |- context [if ?b then _ else _] => destruct b
         | |- context [match parentNode ?e with _ => _ end] => destruct (parentNode e)
         end; simpl; try exact H; framed H.
Qed.

Lemma kept_performance_mark (n : string) (w : World) : P w -> P (performance_mark n w).
Proof.
  intros H. eapply P_frame; [| | | | exact H]; try reflexivity.
  apply (tick_later (performance (host w))).
Qed.

Lemma kept_performance_measure (n a b : string) : stable P (performance_measure n a b).
Proof.
  intros w H. unfold performance_measure.
  destruct (latest_mark a _); [| exact H].
  destruct (latest_mark b _); [| exact H].
  simpl. framed H.
Qed.

Lemma kept_filter_timeline (keep : PerformanceEntry -> bool) (w : World) :
  P w -> P (filter_timeline keep w).
Proof. intros H. framed H. Qed.

Lemma kept_toggle_side_mode (w : World) : P w -> P (toggle_side_mode w).
Proof. intros H. framed H. Qed.

Lemma kept_select_tab (t : Tab) (w : World) : P w -> P (select_tab t w).
Proof. intros H. framed H. Qed.

Lemma kept_console_calls (l : list (Channel * JsValue)) (w : World) :
  P w -> P (console_calls l w).
Proof.
  unfold console_calls. revert w. induction l as [| cv l IH]; intros w H; simpl.
  - exact H.
  - apply IH, kept_wrapper, H.
Qed.

Lemma kept_run_script (text : string) : stable P (run_script text).
Proof.
  intros w H. unfold run_script.
  destruct (thrown _); simpl; apply kept_console_calls, H.
Qed.

Lemma kept_log_results :
  stable P (fun w => log_results (getEntriesByName "ins-s-to-e-measure" w) w).
Proof.
  intros w H. unfold log_results.
  destruct (getEntriesByName _ w); simpl; [exact H |].
  apply kept_wrapper; exact H.
Qed.

#[local] Hint Resolve kept_wrapper kept_inspectElement kept_set_property
  kept_performance_mark kept_performance_measure kept_filter_timeline
  kept_toggle_side_mode kept_select_tab kept_run_script kept_log_results : kept.

Lemma kept_special (ev : Event) (dataName : string) : stable P (special ev dataName).
Proof.
  unfold special, console_log, clearMarks, clearMeasures.
  repeat match goal with
         | |- context [if ?b then _ else _] => destruct b
         end;
    statements; auto with kept.
Qed.

Lemma kept_sp (ev : Event) (dataName : string) : stable P (sp ev dataName).
Proof.
  intros w H. unfold sp. destruct (selected (this w)); [| exact H].
  revert w H. apply stable_bind; [apply kept_special | intros _].
  apply stable_exec. intros w. apply kept_inspectElement.
Qed.

Lemma kept_ch (ev : Event) (dataName : string) : stable P (ch ev dataName).
Proof.
  intros w H. unfold ch. destruct (selected (this w)); [| exact H].
  revert w H. apply stable_bind; [apply kept_set_property | intros _].
  apply stable_exec. intros w. apply kept_inspectElement.
Qed.

Lemma kept_step (w : World) (o : Op) : P w -> P (step w o).
Proof.
  destruct o; simpl.
  - apply kept_wrapper.
  - apply P_push.
  - apply P_push.
  - apply P_toggle.
  - apply kept_inspectElement.
  - apply kept_on_contextmenu.
  - apply kept_on_keydown.
  - apply stable_dispatch; [apply kept_ch | intros e w'; apply P_push].
  - apply stable_dispatch; [apply kept_sp | intros e w'; apply P_push].
Qed.

Lemma kept_run (ops : list Op) (w : World) : P w -> P (run ops w).
Proof. apply run_invariant. intros w' o. apply kept_step. Qed.

End Kept.

(* ================================================================== *)
(** ** The log sequence *)
(* ================================================================== *)

Lemma nondecreasing_snoc (l : list Z) (t : Z) :
  nondecreasing l -> Forall (fun a => a <= t) l -> nondecreasing (l ++ [t]).
Proof.
  induction l as [| a r IH]; intros Hs Hb; simpl; auto.
  inversion Hb as [| ? ? Ha Hr]; subst.
  destruct r as [| b r']; simpl in *.
  - split; [exact Ha | exact I].
  - destruct Hs as [Hab Hs]. split; [exact Hab |]. apply IH; assumption.
Qed.

(** A step that leaves the log alone and does not turn the clock back. *)
Lemma timely_later (w w' : World) :
  general (logs w') = general (logs w) ->
  now w <= now w' ->
  active (this w') = active (this w) ->
  classList (window (this w')) = classList (window (this w)) ->
  timely w -> timely w'.
Proof.
  intros Hg Hn _ _ [Hs Hb]. unfold timely. rewrite Hg. split; [exact Hs |].
  eapply Forall_impl; [| exact Hb]. intros e He; cbv beta in *; unfold now in *; lia.
Qed.

Lemma push_general (v : JsValue) (w : World) :
  general (logs (push v w))
  = general (logs w) ++ [{| ts := clock (tick (performance (host w))); data := v |}].
Proof. reflexivity. Qed.

Lemma push_now (v : JsValue) (w : World) :
  now (push v w) = clock (tick (performance (host w))).
Proof. reflexivity. Qed.

Lemma timely_push (v : JsValue) (w : World) : timely w -> timely (push v w).
Proof.
  intros [Hs Hb]. unfold timely. rewrite push_general, push_now.
  pose proof (tick_later (performance (host w))) as Ht. fold (now w) in Ht.
  split.
  - rewrite map_app. simpl. apply nondecreasing_snoc; [exact Hs |].
    apply Forall_map. eapply Forall_impl; [| exact Hb].
    intros e He; cbv beta in *; unfold now in *; lia.
  - apply Forall_app. split.
    + eapply Forall_impl; [| exact Hb].
      intros e He; cbv beta in *; unfold now in *; lia.
    + constructor; [simpl; lia | constructor].
Qed.

Lemma timely_toggle (w : World) : timely w -> timely (toggle w).
Proof. intros H. exact H. Qed.

Lemma timely_run (ops : list Op) (w : World) : timely w -> timely (run ops w).
Proof. apply (kept_run timely timely_later timely_push timely_toggle). Qed.

Lemma timely_construct (uuid : string) (h : Host) : timely (initial uuid h).
Proof. split; simpl; [exact I | constructor]. Qed.

Lemma is_undefined_false (v : JsValue) : v <> JUndefined -> is_undefined v = false.
Proof. destruct v; simpl; congruence. Qed.

Lemma wrapper_defined (c : Channel) (v : JsValue) (w : World) :
  is_undefined v = false -> wrapper c v w = push v (forward c v w).
Proof. intros H. unfold wrapper. rewrite H. reflexivity. Qed.

Lemma calls_data (l : list (Channel * JsValue)) (w : World) :
  map data (general (logs (run (calls l) w)))
  = map data (general (logs w)) ++ filter defined (map snd l).
Proof.
  revert w. induction l as [| [c v] l IH]; intros w; simpl.
  - symmetry. apply app_nil_r.
  - fold (calls l). fold (run (calls l) (wrapper c v w)). rewrite IH.
    unfold defined at 2. destruct (is_undefined v) eqn:Hv; simpl.
    + unfold wrapper. rewrite Hv. reflexivity.
    + rewrite wrapper_defined by exact Hv. rewrite push_general.
      rewrite map_app, <- app_assoc. reflexivity.
Qed.

(** C1. Every call of a wrapped channel (info, error or warning) with a
    defined payload appends exactly one entry, holding that payload, to the
    end of the log sequence; the payloads logged by a sequence of calls are
    the defined ones in call order; and in every state the page can reach
    the time stamps of the sequence are non-decreasing. *)
Theorem logging_appends_in_call_order :
  (forall (c : Channel) (v : JsValue) (w : World),
      v <> JUndefined ->
      exists t, now w <= t
                /\ general (logs (wrapper c v w))
                   = general (logs w) ++ [{| ts := t; data := v |}])
  /\ (forall (l : list (Channel * JsValue)) (w : World),
         map data (general (logs (run (calls l) w)))
         = map data (general (logs w)) ++ filter defined (map snd l))
  /\ (forall (uuid : string) (h : Host) (ops : list Op),
         nondecreasing (map ts (general (logs (run ops (initial uuid h)))))).
Proof.
  split; [| split].
  - intros c v w Hv. exists (clock (tick (performance (host w)))). split.
    + apply (tick_later (performance (host w))).
    + rewrite wrapper_defined by (apply is_undefined_false, Hv). reflexivity.
  - apply calls_data.
  - intros uuid h ops.
    apply (timely_run ops (initial uuid h) (timely_construct uuid h)).
Qed.

Lemma logging_appends_in_call_order_witness :
  exists t, now Sample.inspecting <= t
            /\ general (logs (wrapper warn (JString "w") Sample.inspecting))
               = general (logs Sample.inspecting) ++ [{| ts := t; data := JString "w" |}].
Proof.
  apply (proj1 logging_appends_in_call_order warn (JString "w") Sample.inspecting).
  discriminate.
Defined.

(** C7, as the code has it. A wrapped channel forwards a call with a
    defined payload to the original channel, once, and appends its entry;
    a call whose payload is [undefined] returns at the guard: it appends
    nothing and is not forwarded either. *)
Theorem wrapper_forwards_defined_payloads (c : Channel) (v : JsValue) (w : World) :
  (v <> JUndefined ->
   f (logs (wrapper c v w)) = f (logs w) ++ [(c, v)]
   /\ List.length (general (logs (wrapper c v w))) = S (List.length (general (logs w)))
   /\ general (logs (wrapper c v w))
      = general (logs w) ++ [{| ts := clock (tick (performance (host w))); data := v |}])
  /\ (v = JUndefined -> wrapper c v w = w).
Proof.
  split.
  - intros Hv. rewrite wrapper_defined by (apply is_undefined_false, Hv). split.
    + reflexivity.
    + split.
      * rewrite push_general, length_app. simpl. rewrite Nat.add_1_r. reflexivity.
      * rewrite push_general. reflexivity.
  - intros ->. reflexivity.
Qed.

Lemma wrapper_forwards_defined_payloads_witness :
  (f (logs (wrapper error JNull (initial "u" Sample.page)))
   = f (logs (initial "u" Sample.page)) ++ [(error, JNull)]
   /\ List.length (general (logs (wrapper error JNull (initial "u" Sample.page))))
      = S (List.length (general (logs (initial "u" Sample.page))))
   /\ general (logs (wrapper error JNull (initial "u" Sample.page)))
      = general (logs (initial "u" Sample.page))
        ++ [{| ts := clock (tick (performance (host (initial "u" Sample.page))));
               data := JNull |}])
  /\ wrapper error JUndefined (initial "u" Sample.page) = initial "u" Sample.page.
Proof.
  split.
  - apply (proj1 (wrapper_forwards_defined_payloads error JNull (initial "u" Sample.page))).
    discriminate.
  - apply (proj2 (wrapper_forwards_defined_payloads error JUndefined (initial "u" Sample.page))).
    reflexivity.
Defined.

(** C7 as stated fails: a call with an [undefined] payload does not reach
    the original channel. *)
Lemma undefined_payload_not_forwarded :
  f (logs (console_log JUndefined (initial "u" Sample.page)))
  <> f (logs (initial "u" Sample.page)) ++ [(log, JUndefined)].
Proof. simpl. discriminate. Qed.

(* ================================================================== *)
(** ** Inspecting while inactive *)
(* ================================================================== *)

(** C3. With [active] false, [inspectElement] returns at its guard: for
    every element and position the whole world, the selection and the
    panel included, is what it was. *)
Theorem inspectElement_inactive_noop (el : ElemRef) (position : Position) (w : World) :
  active (this w) = false -> inspectElement el position w = w.
Proof. intros H. unfold inspectElement. rewrite H. reflexivity. Qed.

Lemma inspectElement_inactive_noop_witness :
  inspectElement 2%nat {| x := Some 3; y := Some 4 |} (initial "u" Sample.page)
  = initial "u" Sample.page.
Proof.
  apply (inspectElement_inactive_noop 2%nat {| x := Some 3; y := Some 4 |}
           (initial "u" Sample.page)).
  reflexivity.
Defined.

(* ================================================================== *)
(** ** Activation *)
(* ================================================================== *)

Lemma contains_removed (tok : string) (l : list string) :
  contains tok (filter (fun c => negb (String.eqb c tok)) l) = false.
Proof.
  induction l as [| c l IH]; simpl; [reflexivity |].
  destruct (String.eqb c tok) eqn:E; simpl; [exact IH |].
  rewrite String.eqb_sym, E. exact IH.
Qed.

Lemma contains_toggle (tok : string) (l : list string) :
  contains tok (classList_toggle tok l) = negb (contains tok l).
Proof.
  unfold classList_toggle. destruct (contains tok l) eqn:E; simpl.
  - apply contains_removed.
  - unfold contains in *. rewrite existsb_app, E. simpl.
    rewrite String.eqb_refl. reflexivity.
Qed.

Lemma rendered_toggle (w : World) : rendered (toggle w) = negb (rendered w).
Proof. unfold rendered. simpl. rewrite contains_toggle. reflexivity. Qed.

Lemma is_inspect_toggle (m : option string) :
  is_inspect (if is_inspect m then None else Some "inspect"%string) = negb (is_inspect m).
Proof. destruct (is_inspect m); reflexivity. Qed.

(** Two calls of [toggle] in any state bring the flag and the four markers
    back. *)
Lemma toggle_toggle (w : World) :
  active (this (toggle (toggle w))) = active (this w)
  /\ rendered (toggle (toggle w)) = rendered w
  /\ is_inspect (data_mode (document (host (toggle (toggle w)))))
     = is_inspect (data_mode (document (host w)))
  /\ inspector_side_mode (document (host (toggle (toggle w))))
     = inspector_side_mode (document (host w))
  /\ side_mode (window (this (toggle (toggle w)))) = side_mode (window (this w)).
Proof.
  repeat split.
  - simpl. apply negb_involutive.
  - rewrite !rendered_toggle. apply negb_involutive.
  - simpl. rewrite !is_inspect_toggle. apply negb_involutive.
  - simpl. apply negb_involutive.
  - simpl. apply negb_involutive.
Qed.

(** When the root's [data-mode] is absent or already [inspect] at the
    start, as on a page that does not use the attribute itself, the two
    calls restore the whole world. *)
Lemma toggle_twice_identity (uuid : string) (l : Logs) (h : Host) :
  data_mode (document h) = None \/ data_mode (document h) = Some "inspect"%string ->
  toggle (toggle (construct uuid l h)) = construct uuid l h.
Proof.
  intros Hm. destruct h as [p d ls ss gcs ev]. destruct d as [st rp dm ism ck].
  simpl in Hm. unfold toggle, construct; simpl.
  rewrite !negb_involutive.
  destruct Hm as [-> | ->]; reflexivity.
Qed.

(** C9, as the code has it. Each call of [toggle] flips [active], the
    [off] class of the panel, the inspect-mode marker of the document root
    and both side-mode attributes.  From the state the constructor leaves,
    two calls restore [active], the panel's class list (so its
    visibility) and both side-mode attributes; the root's [data-mode] is
    restored when it was absent or [inspect] at the start, and then the
    whole world is what it was; any other value it had is overwritten by
    the first call and the attribute is absent after the second. *)
Theorem toggle_flips_and_twice_restores (uuid : string) (l : Logs) (h : Host) :
  (forall w : World,
      active (this (toggle w)) = negb (active (this w))
      /\ rendered (toggle w) = negb (rendered w)
      /\ is_inspect (data_mode (document (host (toggle w))))
         = negb (is_inspect (data_mode (document (host w))))
      /\ data_mode (document (host (toggle w)))
         = (if is_inspect (data_mode (document (host w))) then None else Some "inspect"%string)
      /\ inspector_side_mode (document (host (toggle w)))
         = negb (inspector_side_mode (document (host w)))
      /\ side_mode (window (this (toggle w))) = negb (side_mode (window (this w))))
  /\ (active (this (toggle (toggle (construct uuid l h)))) = active (this (construct uuid l h))
      /\ classList (window (this (toggle (toggle (construct uuid l h)))))
         = classList (window (this (construct uuid l h)))
      /\ rendered (toggle (toggle (construct uuid l h))) = rendered (construct uuid l h)
      /\ inspector_side_mode (document (host (toggle (toggle (construct uuid l h)))))
         = inspector_side_mode (document (host (construct uuid l h)))
      /\ side_mode (window (this (toggle (toggle (construct uuid l h)))))
         = side_mode (window (this (construct uuid l h)))
      /\ data_mode (document (host (toggle (toggle (construct uuid l h)))))
         = (if is_inspect (data_mode (document h)) then Some "inspect"%string else None))
  /\ (data_mode (document h) = None \/ data_mode (document h) = Some "inspect"%string ->
      data_mode (document (host (toggle (toggle (construct uuid l h)))))
      = data_mode (document (host (construct uuid l h)))
      /\ toggle (toggle (construct uuid l h)) = construct uuid l h).
Proof.
  split; [| split].
  - intros w. split; [reflexivity |]. split; [apply rendered_toggle |].
    split; [apply is_inspect_toggle |]. repeat split.
  - destruct (toggle_toggle (construct uuid l h)) as (Ha & Hr & _ & Hd & Hs).
    split; [exact Ha |]. split; [reflexivity |]. split; [exact Hr |].
    split; [exact Hd |]. split; [exact Hs |].
    simpl. destruct (is_inspect (data_mode (document h))); reflexivity.
  - intros Hm. rewrite (toggle_twice_identity uuid l h Hm). split; reflexivity.
Qed.

Lemma toggle_flips_and_twice_restores_witness :
  data_mode (document (host (toggle (toggle (construct "u" {| general := []; f := [] |}
                                               Sample.page)))))
  = data_mode (document (host (construct "u" {| general := []; f := [] |} Sample.page)))
  /\ toggle (toggle (construct "u" {| general := []; f := [] |} Sample.page))
     = construct "u" {| general := []; f := [] |} Sample.page.
Proof.
  apply (proj2 (proj2 (toggle_flips_and_twice_restores "u" {| general := []; f := [] |}
                         Sample.page))).
  left. reflexivity.
Defined.

(** C9 as stated fails on a page that uses [data-mode] itself. The root
    has [data-mode="dark"] when the inspector is made; the first call of
    [toggle] overwrites it with [inspect], the second removes the
    attribute: it is absent, not [dark], after the two calls. *)
Lemma toggle_twice_loses_data_mode :
  data_mode (document (host (construct "u" {| general := []; f := [] |} Sample.themed)))
  = Some "dark"%string
  /\ data_mode (document (host (toggle (construct "u" {| general := []; f := [] |}
                                          Sample.themed))))
     = Some "inspect"%string
  /\ data_mode (document (host (toggle (toggle (construct "u" {| general := []; f := [] |}
                                                  Sample.themed)))))
     = None
  /\ data_mode (document (host (toggle (toggle (construct "u" {| general := []; f := [] |}
                                                  Sample.themed)))))
     <> data_mode (document (host (construct "u" {| general := []; f := [] |} Sample.themed))).
Proof. repeat split. discriminate. Qed.

(** *** The panel is rendered exactly while [active] *)

Lemma shown_same (w w' : World) :
  general (logs w') = general (logs w) ->
  now w <= now w' ->
  active (this w') = active (this w) ->
  classList (window (this w')) = classList (window (this w)) ->
  shown w -> shown w'.
Proof. unfold shown, rendered. intros _ _ -> ->. auto. Qed.

Lemma shown_push (v : JsValue) (w : World) : shown w -> shown (push v w).
Proof. intros H. exact H. Qed.

Lemma shown_toggle (w : World) : shown w -> shown (toggle w).
Proof. unfold shown. intros H. rewrite rendered_toggle, H. reflexivity. Qed.

Lemma shown_run (ops : list Op) (w : World) : shown w -> shown (run ops w).
Proof. apply (kept_run shown shown_same shown_push shown_toggle). Qed.

Lemma shown_construct (uuid : string) (l : Logs) (h : Host) : shown (construct uuid l h).
Proof. reflexivity. Qed.

(** *** Where a selection comes from *)

Lemma wrapper_this (c : Channel) (v : JsValue) (w : World) : this (wrapper c v w) = this w.
Proof. unfold wrapper. destruct (is_undefined v); reflexivity. Qed.

Lemma inspectElement_active (el : ElemRef) (position : Position) (w : World) :
  active (this w) = true ->
  selected (this (inspectElement el position w)) = Some el.
Proof. intros H. unfold inspectElement. rewrite H. reflexivity. Qed.

(** The step at which a selection first appears is a call of
    [inspectElement] made while [active] holds. *)
Lemma first_selection (w : World) (o : Op) :
  selected (this w) = None ->
  selected (this (step w o)) <> None ->
  exists el position,
    active (this w) = true
    /\ step w o = inspectElement el position w
    /\ selected (this (step w o)) = Some el.
Proof.
  intros Hnone Hsel. destruct o; simpl in *.
  - rewrite wrapper_this in Hsel. congruence.
  - congruence.
  - congruence.
  - congruence.
  - destruct (active (this w)) eqn:Ha.
    + exists el, position. repeat split. apply inspectElement_active, Ha.
    + unfold inspectElement in Hsel. rewrite Ha in Hsel. simpl in Hsel. congruence.
  - unfold on_contextmenu in *.
    destruct (negb (active (this w)) || _ || _) eqn:Hg; [congruence |].
    apply orb_false_elim in Hg. destruct Hg as [Hg _].
    apply orb_false_elim in Hg. destruct Hg as [Hg _].
    apply negb_false_iff in Hg.
    exists (target ev), (at_pointer ev). repeat split; [exact Hg |].
    apply inspectElement_active, Hg.
  - unfold on_keydown in *. destruct (negb _); [congruence |].
    destruct (String.eqb _ _); simpl in *; congruence.
  - unfold dispatch, ch in *. rewrite Hnone in Hsel. congruence.
  - unfold dispatch, sp in *. rewrite Hnone in Hsel. congruence.
Qed.

Lemma selection_origin (w0 : World) (ops : list Op) :
  selected (this w0) = None ->
  selected (this (run ops w0)) <> None ->
  exists ops1 o ops2 el position,
    ops = ops1 ++ o :: ops2
    /\ active (this (run ops1 w0)) = true
    /\ step (run ops1 w0) o = inspectElement el position (run ops1 w0)
    /\ selected (this (step (run ops1 w0) o)) = Some el.
Proof.
  intros H0. induction ops as [| o ops IH] using rev_ind; intros Hsel.
  - simpl in Hsel. congruence.
  - rewrite run_snoc in Hsel.
    destruct (selected (this (run ops w0))) as [r |] eqn:Hprev.
    + destruct IH as (ops1 & o1 & ops2 & el & position & -> & Ha & Hs & Hs');
        [discriminate |].
      exists ops1, o1, (ops2 ++ [o]), el, position.
      rewrite <- app_assoc. simpl. auto.
    + destruct (first_selection _ _ Hprev Hsel) as (el & position & Ha & Hs & Hs').
      exists ops, o, [], el, position. auto.
Qed.

(** C4. In every state reached from the state the constructor leaves, by
    any sequence of the public operations and registered handlers, the
    panel is rendered (its class list has no [off]) exactly when [active]
    is true; and if an element is selected, some step of the sequence was a
    call of [inspectElement] made, and completed, while [active] was
    true. *)
Theorem panel_rendered_iff_active (uuid : string) (l : Logs) (h : Host) (ops : list Op) :
  rendered (run ops (construct uuid l h)) = active (this (run ops (construct uuid l h)))
  /\ (selected (this (run ops (construct uuid l h))) <> None ->
      exists ops1 o ops2 el position,
        ops = ops1 ++ o :: ops2
        /\ active (this (run ops1 (construct uuid l h))) = true
        /\ step (run ops1 (construct uuid l h)) o
           = inspectElement el position (run ops1 (construct uuid l h))
        /\ selected (this (step (run ops1 (construct uuid l h)) o)) = Some el).
Proof.
  split.
  - apply (shown_run ops _ (shown_construct uuid l h)).
  - apply selection_origin. reflexivity.
Qed.

Lemma panel_rendered_iff_active_witness :
  exists ops1 o ops2 el position,
    [Toggle; ContextMenu (Sample.click 10 20)] = ops1 ++ o :: ops2
    /\ active (this (run ops1 (construct "u" {| general := []; f := [] |} Sample.page))) = true
    /\ step (run ops1 (construct "u" {| general := []; f := [] |} Sample.page)) o
       = inspectElement el position
           (run ops1 (construct "u" {| general := []; f := [] |} Sample.page))
    /\ selected (this (step (run ops1 (construct "u" {| general := []; f := [] |} Sample.page)) o))
       = Some el.
Proof.
  apply (proj2 (panel_rendered_iff_active "u" {| general := []; f := [] |} Sample.page
                  [Toggle; ContextMenu (Sample.click 10 20)])).
  vm_compute. discriminate.
Defined.

(* ================================================================== *)
(** ** Performance measurement *)
(* ================================================================== *)

Arguments render : simpl never.
Arguments view_of : simpl never.

Lemma latest_mark_snoc (n : string) (t : list PerformanceEntry) (e : PerformanceEntry) :
  latest_mark n (t ++ [e])
  = if is_mark e && String.eqb (name e) n then Some (startTime e) else latest_mark n t.
Proof.
  induction t as [| a t IH]; simpl.
  - reflexivity.
  - rewrite IH. destruct (is_mark e && String.eqb (name e) n); [reflexivity |].
    reflexivity.
Qed.

Lemma insert_by_start_cons (e : PerformanceEntry) (l : list PerformanceEntry) :
  insert_by_start e l <> [].
Proof. destruct l; simpl; [discriminate |]. destruct (_ <? _); discriminate. Qed.

Lemma by_start_snoc (l : list PerformanceEntry) (e : PerformanceEntry) :
  by_start (l ++ [e]) = insert_by_start e (by_start l).
Proof. unfold by_start. rewrite fold_left_app. reflexivity. Qed.

Lemma by_start_nil (l : list PerformanceEntry) : by_start l = [] -> l = [].
Proof.
  destruct l as [| a l] using rev_ind; [reflexivity |].
  rewrite by_start_snoc. intros H. destruct (insert_by_start_cons _ _ H).
Qed.

(** Every entry of the buffer is a mark or a measure. *)
Lemma cleared (t : list PerformanceEntry) :
  filter (fun e => negb (is_measure e)) (filter (fun e => negb (is_mark e)) t) = [].
Proof.
  induction t as [| e t IH]; simpl; [reflexivity |].
  unfold is_mark at 1. destruct (entryType e) eqn:E; simpl; [exact IH |].
  unfold is_measure at 1. rewrite E. simpl. exact IH.
Qed.

Lemma inspectElement_host (el : ElemRef) (position : Position) (w : World) :
  host (inspectElement el position w) = host w.
Proof. unfold inspectElement. destruct (negb _); reflexivity. Qed.

Lemma inspectElement_logs (el : ElemRef) (position : Position) (w : World) :
  logs (inspectElement el position w) = logs w.
Proof. unfold inspectElement. destruct (negb _); reflexivity. Qed.

Lemma inspectElement_tab (el : ElemRef) (position : Position) (w : World) :
  tab (this (inspectElement el position w)) = tab (this w).
Proof. unfold inspectElement. destruct (negb _); reflexivity. Qed.

Lemma inspectElement_selected (el : ElemRef) (position : Position) (w : World) :
  selected (this w) = Some el -> selected (this (inspectElement el position w)) = Some el.
Proof. unfold inspectElement. destruct (negb _); auto. Qed.

Lemma special_stamp (ev : Event) :
  special ev "stamp"
  = (exec (performance_mark "ins-end-mark") ;;;
     performance_measure "ins-s-to-e-measure" "ins-mark" "ins-end-mark" ;;;
     (fun w => log_results (getEntriesByName "ins-s-to-e-measure" w) w) ;;;
     exec clearMarks ;;;
     exec clearMeasures ;;;
     exec (select_tab console)).
Proof. reflexivity. Qed.

Lemma special_mark (ev : Event) : special ev "mark" = exec (performance_mark "ins-mark").
Proof. reflexivity. Qed.

(** The state a completed [stamp] leaves has the console tab. *)
Lemma stamp_returned (ev : Event) (sel : ElemRef) (w w' : World) :
  selected (this w) = Some sel ->
  sp ev "stamp" w = Returned tt w' ->
  tab (this w') = console.
Proof.
  intros Hsel. unfold sp. rewrite Hsel, special_stamp. unfold bind, exec.
  destruct (performance_measure _ _ _ _) as [[] w1 | e w1]; [| discriminate].
  destruct (log_results _ _) as [[] w2 | e w2]; [| discriminate].
  intros H. inversion H; subst. rewrite inspectElement_tab. reflexivity.
Qed.

Lemma measure_after_end_mark (w : World) (s : Z) :
  latest_mark "ins-mark" (timeline (performance (host w))) = Some s ->
  performance_measure "ins-s-to-e-measure" "ins-mark" "ins-end-mark"
    (performance_mark "ins-end-mark" w)
  = Returned tt
      (queue_entry {| name := "ins-s-to-e-measure"; entryType := Measure;
                      startTime := s;
                      duration := clock (tick (performance (host w))) - s |}
         (performance_mark "ins-end-mark" w)).
Proof.
  intros Hmark. unfold performance_measure.
  change (timeline (performance (host (performance_mark "ins-end-mark" w))))
    with (timeline (performance (host w))
            ++ [{| name := "ins-end-mark"; entryType := Mark;
                   startTime := clock (tick (performance (host w))); duration := 0 |}]).
  rewrite !latest_mark_snoc. simpl. rewrite Hmark. reflexivity.
Qed.

(** After the measure, the entries of its name are never none. *)
Lemma results_after_measure (w : World) (m : PerformanceEntry) :
  name m = "ins-s-to-e-measure"%string ->
  exists r rest,
    getEntriesByName "ins-s-to-e-measure" (queue_entry m w) = r :: rest.
Proof.
  intros Hn. unfold getEntriesByName.
  change (timeline (performance (host (queue_entry m w))))
    with (timeline (performance (host w)) ++ [m]).
  rewrite filter_app. simpl. rewrite Hn. simpl. rewrite by_start_snoc.
  destruct (insert_by_start m _) as [| r rest] eqn:E.
  - destruct (insert_by_start_cons _ _ E).
  - eauto.
Qed.

(** Where the buffer held no entry of that name, the measure is the only
    one. *)
Lemma results_only_measure (w : World) (m : PerformanceEntry) :
  name m = "ins-s-to-e-measure"%string ->
  getEntriesByName "ins-s-to-e-measure" w = [] ->
  getEntriesByName "ins-s-to-e-measure" (queue_entry m w) = [m].
Proof.
  intros Hn Hnone. apply by_start_nil in Hnone. unfold getEntriesByName.
  change (timeline (performance (host (queue_entry m w))))
    with (timeline (performance (host w)) ++ [m]).
  rewrite filter_app, Hnone. simpl. rewrite Hn. reflexivity.
Qed.

Lemma results_unmarked (n : string) (w : World) :
  getEntriesByName "ins-s-to-e-measure" (performance_mark n w)
  = if String.eqb n "ins-s-to-e-measure"
    then getEntriesByName "ins-s-to-e-measure" (performance_mark n w)
    else getEntriesByName "ins-s-to-e-measure" w.
Proof.
  destruct (String.eqb n "ins-s-to-e-measure") eqn:E; [reflexivity |].
  unfold getEntriesByName.
  change (timeline (performance (host (performance_mark n w))))
    with (timeline (performance (host w))
            ++ [{| name := n; entryType := Mark;
                   startTime := clock (tick (performance (host w))); duration := 0 |}]).
  rewrite filter_app. simpl. rewrite E. rewrite app_nil_r. reflexivity.
Qed.

Lemma stamp_completes (ev : Event) (sel : ElemRef) (w : World) (s : Z) :
  selected (this w) = Some sel ->
  latest_mark "ins-mark" (timeline (performance (host w))) = Some s ->
  exists r rest,
    getEntriesByName "ins-s-to-e-measure"
      (queue_entry {| name := "ins-s-to-e-measure"; entryType := Measure;
                      startTime := s;
                      duration := clock (tick (performance (host w))) - s |}
         (performance_mark "ins-end-mark" w)) = r :: rest
    /\ sp ev "stamp" w
       = Returned tt
           (stamped ev sel r
              (queue_entry {| name := "ins-s-to-e-measure"; entryType := Measure;
                              startTime := s;
                              duration := clock (tick (performance (host w))) - s |}
                 (performance_mark "ins-end-mark" w))).
Proof.
  intros Hsel Hmark.
  destruct (results_after_measure (performance_mark "ins-end-mark" w)
              {| name := "ins-s-to-e-measure"; entryType := Measure;
                 startTime := s;
                 duration := clock (tick (performance (host w))) - s |} eq_refl)
    as (r & rest & Hr).
  exists r, rest. split; [exact Hr |].
  unfold sp. rewrite Hsel, special_stamp. unfold bind at 1 2 3. unfold exec at 1.
  rewrite (measure_after_end_mark w s Hmark).
  unfold bind at 1. rewrite Hr. reflexivity.
Qed.

(** C10. In every state with an element selected, a [stamp] action that
    completes leaves [console] as the current tab; and it does complete
    whenever the buffer holds a mark called [ins-mark]. *)
Theorem stamp_selects_console (ev : Event) (sel : ElemRef) (w : World) :
  selected (this w) = Some sel ->
  (forall w', sp ev "stamp" w = Returned tt w' -> tab (this w') = console)
  /\ (forall s, latest_mark "ins-mark" (timeline (performance (host w))) = Some s ->
                exists w', sp ev "stamp" w = Returned tt w' /\ tab (this w') = console).
Proof.
  intros Hsel. split.
  - intros w'. apply (stamp_returned ev sel w w' Hsel).
  - intros s Hmark.
    destruct (stamp_completes ev sel w s Hsel Hmark) as (r & rest & _ & Hsp).
    eexists. split; [exact Hsp |]. apply (stamp_returned ev sel w _ Hsel Hsp).
Qed.

Lemma results_of_host (n : string) (w w' : World) :
  host w = host w' -> getEntriesByName n w = getEntriesByName n w'.
Proof. unfold getEntriesByName. intros ->. reflexivity. Qed.

Lemma performance_mark_host (n : string) (w w' : World) :
  host w = host w' -> host (performance_mark n w) = host (performance_mark n w').
Proof. unfold performance_mark, performance_now, queue_entry. simpl. intros ->. reflexivity. Qed.

(** Numbers are printed in digits, which [JSON.stringify] leaves as they
    are. *)
Lemma digits_plain (d : Decimal.uint) (rest : string) :
  json_escape (NilEmpty.string_of_uint d +++ rest)
  = NilEmpty.string_of_uint d +++ json_escape rest.
Proof.
  induction d; cbn [NilEmpty.string_of_uint append]; try reflexivity;
    rewrite <- IHd; reflexivity.
Qed.

Lemma show_plain (z : Z) (rest : string) :
  json_escape (show z +++ rest) = show z +++ json_escape rest.
Proof.
  unfold show, NilZero.string_of_int.
  destruct (Z.to_int z) as [d | d].
  - destruct d; try apply (digits_plain _ rest). reflexivity.
  - change (json_escape (String "-" (NilZero.string_of_uint d +++ rest))
            = String "-" (NilZero.string_of_uint d +++ json_escape rest)).
    transitivity (String "-" (json_escape (NilZero.string_of_uint d +++ rest)));
      [reflexivity | f_equal].
    destruct d; try apply (digits_plain _ rest). reflexivity.
Qed.

(** The text [console.log] is given for [results[0]]. *)
Lemma stamp_result_text (m : PerformanceEntry) :
  stamp_result m
  = "STAMP RESULT: {"
      +++ (q "start" +++ ":" +++ q (show (startTime m) +++ "ms") +++ ","
             +++ q "duration" +++ ":" +++ q (show (duration m) +++ "ms"))
      +++ "}".
Proof.
  unfold stamp_result, JSON_stringify. cbn [json_members]. unfold json_string.
  rewrite !show_plain. reflexivity.
Qed.

(** C8. With an element selected and no measure of the inspector's name
    in the buffer (as when no mark was placed before), one [mark] action
    followed by one [stamp] action both complete; together they append
    exactly one entry to the log sequence.  The entry is the result of the
    measure between the two marks: it starts at the reading of the clock
    the [mark] took, its duration is the reading the [stamp] took less
    that one, which is not negative, and the text logged spells out that
    start and that duration.  The buffer is empty afterwards. *)
Theorem mark_then_stamp (ev1 ev2 : Event) (sel : ElemRef) (w : World) :
  selected (this w) = Some sel ->
  getEntriesByName "ins-s-to-e-measure" w = [] ->
  exists w1 w2 m t,
    sp ev1 "mark" w = Returned tt w1
    /\ sp ev2 "stamp" w1 = Returned tt w2
    /\ general (logs w2) = general (logs w) ++ [{| ts := t; data := JString (stamp_result m) |}]
    /\ name m = "ins-s-to-e-measure"%string
    /\ entryType m = Measure
    /\ startTime m = clock (tick (performance (host w)))
    /\ duration m
       = clock (tick (tick (performance (host w)))) - clock (tick (performance (host w)))
    /\ 0 <= duration m
    /\ stamp_result m
       = ("STAMP RESULT: {"
            +++ (q "start" +++ ":"
                   +++ q (show (clock (tick (performance (host w)))) +++ "ms") +++ ","
                   +++ q "duration" +++ ":"
                   +++ q (show (clock (tick (tick (performance (host w))))
                                - clock (tick (performance (host w)))) +++ "ms"))
            +++ "}")
    /\ timeline (performance (host w2)) = [].
Proof.
  intros Hsel Hnone.
  set (w1 := inspectElement sel (at_pointer ev1) (performance_mark "ins-mark" w)).
  assert (H1 : host w1 = host (performance_mark "ins-mark" w))
    by apply inspectElement_host.
  assert (Hsel1 : selected (this w1) = Some sel)
    by (apply inspectElement_selected; exact Hsel).
  assert (Hmark : latest_mark "ins-mark" (timeline (performance (host w1)))
                  = Some (clock (tick (performance (host w))))).
  { rewrite H1.
    change (timeline (performance (host (performance_mark "ins-mark" w))))
      with (timeline (performance (host w))
              ++ [{| name := "ins-mark"; entryType := Mark;
                     startTime := clock (tick (performance (host w))); duration := 0 |}]).
    rewrite latest_mark_snoc. reflexivity. }
  destruct (stamp_completes ev2 sel w1 _ Hsel1 Hmark) as (r & rest & Hr & Hsp).
  rewrite results_only_measure in Hr.
  - inversion Hr; subst r rest; clear Hr.
    eexists w1, _, _, _.
    split; [unfold sp; rewrite Hsel, special_mark; reflexivity |].
    split; [exact Hsp |].
    split; [unfold stamped; rewrite inspectElement_logs; simpl;
            unfold w1; rewrite inspectElement_logs; reflexivity |].
    split; [reflexivity |]. split; [reflexivity |]. split; [reflexivity |].
    split; [cbn [duration]; rewrite !inspectElement_host; reflexivity |].
    split; [rewrite !inspectElement_host; simpl; lia |].
    split; [rewrite stamp_result_text; cbn [startTime duration];
            rewrite !inspectElement_host; reflexivity |].
    unfold stamped. rewrite inspectElement_host. simpl. apply cleared.
  - reflexivity.
  - rewrite results_unmarked. simpl.
    rewrite (results_of_host _ w1 (performance_mark "ins-mark" w) H1).
    rewrite results_unmarked. simpl. exact Hnone.
Qed.

Lemma mark_then_stamp_witness :
  exists w1 w2 m t,
    sp (Sample.click 1 2) "mark" Sample.inspecting = Returned tt w1
    /\ sp (Sample.click 3 4) "stamp" w1 = Returned tt w2
    /\ general (logs w2)
       = general (logs Sample.inspecting) ++ [{| ts := t; data := JString (stamp_result m) |}]
    /\ name m = "ins-s-to-e-measure"%string
    /\ entryType m = Measure
    /\ startTime m = clock (tick (performance (host Sample.inspecting)))
    /\ duration m
       = clock (tick (tick (performance (host Sample.inspecting))))
         - clock (tick (performance (host Sample.inspecting)))
    /\ 0 <= duration m
    /\ stamp_result m
       = ("STAMP RESULT: {"
            +++ (q "start" +++ ":"
                   +++ q (show (clock (tick (performance (host Sample.inspecting))))
                            +++ "ms") +++ ","
                   +++ q "duration" +++ ":"
                   +++ q (show (clock (tick (tick (performance (host Sample.inspecting))))
                                - clock (tick (performance (host Sample.inspecting))))
                            +++ "ms"))
            +++ "}")
    /\ timeline (performance (host w2)) = [].
Proof.
  apply (mark_then_stamp (Sample.click 1 2) (Sample.click 3 4) 2%nat Sample.inspecting).
  - vm_compute. reflexivity.
  - vm_compute. reflexivity.
Defined.

Lemma stamp_selects_console_witness :
  exists w', sp (Sample.click 3 4) "stamp" Sample.marking = Returned tt w'
             /\ tab (this w') = console.
Proof.
  assert (Hsel : selected (this Sample.marking) = Some 2%nat) by (vm_compute; reflexivity).
  apply (proj2 (stamp_selects_console (Sample.click 3 4) 2%nat Sample.marking Hsel) 105).
  vm_compute. reflexivity.
Defined.

(* ================================================================== *)
(** ** Special actions with a tag the [switch] does not know *)
(* ================================================================== *)

Lemma special_unrecognized (ev : Event) (tag : string) :
  ~ In tag recognized -> special ev tag = ret tt.
Proof.
  intros Hn. unfold special.
  repeat match goal with
         | |- context [String.eqb tag ?s] =>
             destruct (String.eqb_spec tag s) as [-> | _];
             [exfalso; apply Hn; simpl; tauto |]
         end.
  reflexivity.
Qed.

(** C6, as the code has it. For a tag that is not one of the eight the
    [switch] knows, the [switch] does nothing and nothing is thrown; [sp]
    then inspects the selected element again, as it does after every tag:
    the panel is moved to the pointer and rendered anew, while the log, the
    page and the fields [active], [selected] and [tab] stay as they were.
    The call changes nothing at all when no element is selected or the
    inspector is not active. *)
Theorem sp_unrecognized_inspects_again (ev : Event) (tag : string) (w : World) :
  ~ In tag recognized ->
  sp ev tag w
  = Returned tt match selected (this w) with
                | Some sel => inspectElement sel (at_pointer ev) w
                | None => w
                end
  /\ (selected (this w) = None \/ active (this w) = false -> sp ev tag w = Returned tt w)
  /\ logs (world_of (sp ev tag w)) = logs w
  /\ host (world_of (sp ev tag w)) = host w
  /\ active (this (world_of (sp ev tag w))) = active (this w)
  /\ selected (this (world_of (sp ev tag w))) = selected (this w)
  /\ tab (this (world_of (sp ev tag w))) = tab (this w).
Proof.
  intros Hn.
  assert (Hsp : sp ev tag w
                = Returned tt match selected (this w) with
                              | Some sel => inspectElement sel (at_pointer ev) w
                              | None => w
                              end).
  { unfold sp. rewrite (special_unrecognized ev tag Hn).
    destruct (selected (this w)); reflexivity. }
  split; [exact Hsp |]. rewrite Hsp. simpl.
  destruct (selected (this w)) as [sel |] eqn:Hsel.
  - unfold inspectElement. destruct (active (this w)) eqn:Ha; simpl.
    + repeat split; try assumption. intros [H | H]; discriminate.
    + repeat split; assumption.
  - repeat split; assumption.
Qed.

Lemma sp_unrecognized_inspects_again_witness :
  sp (Sample.click 30 40) "reload" (initial "u" Sample.page)
  = Returned tt (initial "u" Sample.page).
Proof.
  apply (sp_unrecognized_inspects_again (Sample.click 30 40) "reload" (initial "u" Sample.page)).
  - simpl. intros H. repeat (destruct H as [H | H]; [discriminate H |]). exact H.
  - left. reflexivity.
Defined.

(** C6 as stated fails: the Refresh button of the panel sends the tag
    [reload], which the [switch] does not know, and the panel is moved and
    rendered anew with the entry logged since the last render. *)
Lemma refresh_is_not_a_noop :
  ~ In "reload"%string recognized
  /\ exists w',
      sp (Sample.click 30 40) "reload" Sample.logged = Returned tt w'
      /\ style_left (window (this w')) <> style_left (window (this Sample.logged))
      /\ innerHTML (window (this w')) <> innerHTML (window (this Sample.logged)).
Proof.
  split.
  - simpl. intros H. repeat (destruct H as [H | H]; [discriminate H |]). exact H.
  - eexists. split; [vm_compute; reflexivity |]. split.
    + vm_compute. discriminate.
    + intros H. apply (f_equal String.length) in H. vm_compute in H. discriminate H.
Qed.

(* ================================================================== *)
(** ** What the panel's markup depends on *)
(* ================================================================== *)

Lemma markup_render (el : ElemRef) (position : Position) (w : World) :
  active (this w) = true ->
  markup el position w = render (id (this w)) (tab_name (tab (this w))) (view_of el w).
Proof. intros H. unfold markup, inspectElement. rewrite H. reflexivity. Qed.

(** The last alternative of the conditional chain. *)
Lemma tab_slot_other (i t : string) (v : View) :
  t <> "display"%string -> t <> "console"%string ->
  t <> "storage"%string -> t <> "performance"%string ->
  tab_slot i t v = "undefined"%string.
Proof.
  intros Hd Hc Hs Hp. unfold tab_slot.
  apply String.eqb_neq in Hd, Hc, Hs, Hp. rewrite Hd, Hc, Hs, Hp. reflexivity.
Qed.

(** C5, as the code has it. The markup [inspectElement] assigns is a
    function of the session id, the current tab and the values gathered in
    [View]: the element with its computed style, the log sequence, the two
    storage areas and the cookie string, and also the panel's [side-mode]
    attribute and whether a mark called [ins-mark] is in the buffer.  It is
    the frame followed by the sub-view of the current tab, one of four; for
    a tab value that is none of the four names, none of the four sub-views
    is produced. *)
Theorem markup_function_of_view :
  (forall (el1 el2 : ElemRef) (p1 p2 : Position) (w1 w2 : World),
      active (this w1) = true -> active (this w2) = true ->
      id (this w1) = id (this w2) ->
      tab (this w1) = tab (this w2) ->
      view_of el1 w1 = view_of el2 w2 ->
      markup el1 p1 w1 = markup el2 p2 w2)
  /\ (forall (el : ElemRef) (p : Position) (w : World),
         active (this w) = true ->
         markup el p w
         = frame (id (this w)) (tab_name (tab (this w)))
                 (element (view_of el w)) (side (view_of el w))
           +++ match tab (this w) with
               | display =>
                   display_view (id (this w)) (element (view_of el w)) (computed (view_of el w))
               | console => console_view (id (this w)) (entries (view_of el w))
               | storage =>
                   storage_view (id (this w)) (local (view_of el w)) (session (view_of el w))
                                (cookies (view_of el w))
               | performance_tab => performance_view (id (this w)) (marked (view_of el w))
               end)
  /\ (forall (i t : string) (v : View),
         t <> "display"%string -> t <> "console"%string ->
         t <> "storage"%string -> t <> "performance"%string ->
         tab_slot i t v <> display_view i (element v) (computed v)
         /\ tab_slot i t v <> console_view i (entries v)
         /\ tab_slot i t v <> storage_view i (local v) (session v) (cookies v)
         /\ tab_slot i t v <> performance_view i (marked v)).
Proof.
  split; [| split].
  - intros el1 el2 p1 p2 w1 w2 H1 H2 Hi Ht Hv.
    rewrite !markup_render by assumption. rewrite Hi, Ht, Hv. reflexivity.
  - intros el p w H. rewrite markup_render by exact H.
    unfold render. destruct (tab (this w)); reflexivity.
  - intros i t v Hd Hc Hs Hp. rewrite (tab_slot_other i t v Hd Hc Hs Hp).
    repeat split; discriminate.
Qed.

Lemma markup_function_of_view_witness :
  markup 2%nat {| x := Some 1; y := Some 1 |} Sample.inspecting
  = markup 2%nat {| x := Some 7; y := None |} Sample.inspecting.
Proof.
  apply (proj1 markup_function_of_view); reflexivity.
Defined.

(** C5 as stated fails. Two worlds with the same tab, element, log
    sequence and storage get different markup when the panel's [side-mode]
    attribute differs, and likewise when a mark is pending; and a tab value
    outside the four renders the word [undefined], not nothing. *)
Lemma markup_needs_more_than_named_inputs :
  (named_inputs 2%nat Sample.inspecting = named_inputs 2%nat (toggle_side_mode Sample.inspecting)
   /\ markup 2%nat {| x := None; y := None |} Sample.inspecting
      <> markup 2%nat {| x := None; y := None |} (toggle_side_mode Sample.inspecting))
  /\ (named_inputs 2%nat (select_tab performance_tab Sample.inspecting)
      = named_inputs 2%nat (performance_mark "ins-mark" (select_tab performance_tab Sample.inspecting))
      /\ markup 2%nat {| x := None; y := None |} (select_tab performance_tab Sample.inspecting)
         <> markup 2%nat {| x := None; y := None |}
              (performance_mark "ins-mark" (select_tab performance_tab Sample.inspecting)))
  /\ tab_slot "inspector-u" "network" (view_of 2%nat Sample.inspecting) <> EmptyString.
Proof.
  split; [| split].
  - split; [reflexivity |].
    intros H. apply (f_equal String.length) in H. vm_compute in H. discriminate H.
  - split; [reflexivity |].
    intros H. apply (f_equal String.length) in H. vm_compute in H. discriminate H.
  - vm_compute. discriminate.
Qed.

(* ================================================================== *)
(** ** Editing the selected element *)
(* ================================================================== *)

Lemma append_assoc (a b c : string) : (a +++ b) +++ c = a +++ b +++ c.
Proof. induction a as [| ch a IH]; simpl; [reflexivity | rewrite IH; reflexivity]. Qed.

Lemma mentions_left (needle a b : string) : mentions needle a -> mentions needle (a +++ b).
Proof.
  intros (before & after & ->). exists before, (after +++ b).
  rewrite !append_assoc. reflexivity.
Qed.

Lemma mentions_right (needle a b : string) : mentions needle b -> mentions needle (a +++ b).
Proof.
  intros (before & after & ->). exists (a +++ before), after.
  rewrite !append_assoc. reflexivity.
Qed.

(** The heading of the panel names the element's id and class. *)
Lemma frame_mentions_id (i t : string) (el : Element) (s : bool) :
  mentions (" #" +++ element_id el +++ " .") (frame i t el s).
Proof.
  unfold frame.
  exists (" <!-- primary window --> <h2>" +++ nodeName el). eexists.
  rewrite !append_assoc. reflexivity.
Qed.

Lemma frame_mentions_className (i t : string) (el : Element) (s : bool) :
  mentions (" ." +++ className el +++ "</h2>") (frame i t el s).
Proof.
  unfold frame.
  exists (" <!-- primary window --> <h2>" +++ nodeName el +++ " #" +++ element_id el). eexists.
  rewrite !append_assoc. reflexivity.
Qed.

(** The display tab shows both in their fields. *)
Lemma display_mentions_id (i : string) (el : Element) (c : list (string * string)) :
  mentions ("ID: <input onchange=" +++ call i "ch" "id" +++ " value=" +++ q (element_id el))
           (display_view i el c).
Proof.
  unfold display_view. apply mentions_right, mentions_right, mentions_right, mentions_left.
  unfold row. apply mentions_right, mentions_right, mentions_right, mentions_left.
  exists EmptyString, "> "%string. rewrite !append_assoc. reflexivity.
Qed.

Lemma display_mentions_className (i : string) (el : Element) (c : list (string * string)) :
  mentions ("className: <input onchange=" +++ call i "ch" "className" +++ " value="
              +++ q (className el))
           (display_view i el c).
Proof.
  unfold display_view.
  do 5 apply mentions_right. apply mentions_left.
  unfold row. apply mentions_right, mentions_right, mentions_right, mentions_left.
  exists EmptyString, "> "%string. rewrite !append_assoc. reflexivity.
Qed.

Lemma getAttribute_setAttribute (k v : string) (a : list (string * string)) :
  getAttribute k (setAttribute k v a) = Some v.
Proof.
  induction a as [| [k' v'] a IH]; simpl.
  - rewrite String.eqb_refl. reflexivity.
  - destruct (String.eqb k' k) eqn:E; simpl.
    + rewrite String.eqb_refl. reflexivity.
    + rewrite E. exact IH.
Qed.

Lemma update_same (r : ElemRef) (el : Element) (st : ElemRef -> Element) : update r el st r = el.
Proof. unfold update. rewrite Nat.eqb_refl. reflexivity. Qed.

(** What [ch] does once its guard is passed and the property is written. *)
Lemma ch_written (ev : Event) (dataName : string) (sel : ElemRef) (w w1 : World) :
  selected (this w) = Some sel ->
  set_property sel dataName (value ev) w = Returned tt w1 ->
  ch ev dataName w = Returned tt (inspectElement sel (at_pointer ev) w1).
Proof. intros Hsel Hset. unfold ch. rewrite Hsel. unfold bind. rewrite Hset. reflexivity. Qed.

Lemma inspected (el : ElemRef) (position : Position) (w : World) :
  active (this w) = true ->
  innerHTML (window (this (inspectElement el position w)))
  = render (id (this (inspectElement el position w)))
           (tab_name (tab (this (inspectElement el position w))))
           (view_of el (inspectElement el position w)).
Proof. intros H. unfold inspectElement. rewrite H. reflexivity. Qed.

Lemma set_outerHTML_keeps_node (r : ElemRef) (text : string) (w w' : World) :
  set_outerHTML r text w = Returned tt w' ->
  outerHTML (nodes (document (host w')) r) = outerHTML (nodes (document (host w)) r)
  /\ this w' = this w.
Proof.
  unfold set_outerHTML. destruct (parentNode _); intros H; inversion H; subst; simpl.
  - split; reflexivity.
  - rewrite update_same. split; reflexivity.
Qed.

Lemma inspectElement_id (el : ElemRef) (position : Position) (w : World) :
  id (this (inspectElement el position w)) = id (this w).
Proof. unfold inspectElement. destruct (negb _); reflexivity. Qed.

Lemma render_mentions_id (i t : string) (v : View) :
  mentions (" #" +++ element_id (element v) +++ " .") (render i t v).
Proof. unfold render. apply mentions_left, frame_mentions_id. Qed.

Lemma render_mentions_className (i t : string) (v : View) :
  mentions (" ." +++ className (element v) +++ "</h2>") (render i t v).
Proof. unfold render. apply mentions_left, frame_mentions_className. Qed.

Lemma render_display_mentions_id (i : string) (v : View) :
  mentions ("ID: <input onchange=" +++ call i "ch" "id" +++ " value="
              +++ q (element_id (element v)))
           (render i (tab_name display) v).
Proof. unfold render. apply mentions_right, display_mentions_id. Qed.

Lemma render_display_mentions_className (i : string) (v : View) :
  mentions ("className: <input onchange=" +++ call i "ch" "className" +++ " value="
              +++ q (className (element v)))
           (render i (tab_name display) v).
Proof. unfold render. apply mentions_right, display_mentions_className. Qed.

Lemma view_of_inspected (el : ElemRef) (position : Position) (w : World) :
  element (view_of el (inspectElement el position w)) = nodes (document (host w)) el.
Proof. unfold view_of. simpl. rewrite inspectElement_host. reflexivity. Qed.

(** The edits and what follows them.  With an element selected and the
    inspector active, an edit of the id or of the class-name field
    overwrites that property of the selected element with the field's
    value, and the panel is rendered again from the element as it now is:
    its heading, and on the display tab the field itself, show the new
    value.  An edit of the raw-markup field hands the text to the setter of
    [outerHTML]; when that returns, the selected element is still the node
    it was, with the markup it had, and the panel is rendered again from
    that node. *)
Theorem ch_overwrites_id_and_className (ev : Event) (sel : ElemRef) (w : World) :
  selected (this w) = Some sel ->
  active (this w) = true ->
  (exists w',
      ch ev "id" w = Returned tt w'
      /\ element_id (nodes (document (host w')) sel) = value ev
      /\ selected (this w') = Some sel
      /\ innerHTML (window (this w'))
         = render (id (this w')) (tab_name (tab (this w'))) (view_of sel w')
      /\ mentions (" #" +++ value ev +++ " .") (innerHTML (window (this w')))
      /\ (tab (this w) = display ->
          mentions ("ID: <input onchange=" +++ call (id (this w)) "ch" "id" +++ " value="
                      +++ q (value ev))
                   (innerHTML (window (this w')))))
  /\ (exists w',
         ch ev "className" w = Returned tt w'
         /\ className (nodes (document (host w')) sel) = value ev
         /\ selected (this w') = Some sel
         /\ innerHTML (window (this w'))
            = render (id (this w')) (tab_name (tab (this w'))) (view_of sel w')
         /\ mentions (" ." +++ value ev +++ "</h2>") (innerHTML (window (this w')))
         /\ (tab (this w) = display ->
             mentions ("className: <input onchange=" +++ call (id (this w)) "ch" "className"
                         +++ " value=" +++ q (value ev))
                      (innerHTML (window (this w')))))
  /\ (forall w',
         ch ev "outerHTML" w = Returned tt w' ->
         selected (this w') = Some sel
         /\ outerHTML (nodes (document (host w')) sel) = outerHTML (nodes (document (host w)) sel)
         /\ innerHTML (window (this w'))
            = render (id (this w')) (tab_name (tab (this w'))) (view_of sel w')).
Proof.
  intros Hsel Ha. split; [| split].
  - set (el := nodes (document (host w)) sel).
    set (w1 := write_node sel (set_attributes (setAttribute "id" (value ev) (attributes el)) el) w).
    assert (Hid : element_id (nodes (document (host w1)) sel) = value ev).
    { unfold w1, write_node. simpl. rewrite update_same. unfold element_id. simpl.
      rewrite getAttribute_setAttribute. reflexivity. }
    exists (inspectElement sel (at_pointer ev) w1).
    assert (Hin := inspected sel (at_pointer ev) w1 Ha).
    split; [apply (ch_written ev "id" sel w w1 Hsel); reflexivity |].
    rewrite inspectElement_host.
    split; [exact Hid |]. split; [apply inspectElement_active, Ha |]. split; [exact Hin |].
    rewrite Hin. rewrite <- (view_of_inspected sel (at_pointer ev) w1) in Hid. split.
    + pose proof (render_mentions_id (id (this (inspectElement sel (at_pointer ev) w1)))
                    (tab_name (tab (this (inspectElement sel (at_pointer ev) w1))))
                    (view_of sel (inspectElement sel (at_pointer ev) w1))) as Hm.
      rewrite Hid in Hm. exact Hm.
    + intros Ht. rewrite inspectElement_tab, inspectElement_id.
      change (tab (this w1)) with (tab (this w)). rewrite Ht.
      pose proof (render_display_mentions_id (id (this w1))
                    (view_of sel (inspectElement sel (at_pointer ev) w1))) as Hm.
      rewrite Hid in Hm. exact Hm.
  - set (el := nodes (document (host w)) sel).
    set (w1 := write_node sel (set_attributes (setAttribute "class" (value ev) (attributes el)) el) w).
    assert (Hcl : className (nodes (document (host w1)) sel) = value ev).
    { unfold w1, write_node. simpl. rewrite update_same. unfold className. simpl.
      rewrite getAttribute_setAttribute. reflexivity. }
    exists (inspectElement sel (at_pointer ev) w1).
    assert (Hin := inspected sel (at_pointer ev) w1 Ha).
    split; [apply (ch_written ev "className" sel w w1 Hsel); reflexivity |].
    rewrite inspectElement_host.
    split; [exact Hcl |]. split; [apply inspectElement_active, Ha |]. split; [exact Hin |].
    rewrite Hin. rewrite <- (view_of_inspected sel (at_pointer ev) w1) in Hcl. split.
    + pose proof (render_mentions_className (id (this (inspectElement sel (at_pointer ev) w1)))
                    (tab_name (tab (this (inspectElement sel (at_pointer ev) w1))))
                    (view_of sel (inspectElement sel (at_pointer ev) w1))) as Hm.
      rewrite Hcl in Hm. exact Hm.
    + intros Ht. rewrite inspectElement_tab, inspectElement_id.
      change (tab (this w1)) with (tab (this w)). rewrite Ht.
      pose proof (render_display_mentions_className (id (this w1))
                    (view_of sel (inspectElement sel (at_pointer ev) w1))) as Hm.
      rewrite Hcl in Hm. exact Hm.
  - intros w'. unfold ch. rewrite Hsel. unfold bind.
    change (set_property sel "outerHTML" (value ev) w) with (set_outerHTML sel (value ev) w).
    destruct (set_outerHTML sel (value ev) w) as [[] w1 | e w1] eqn:Hset; [| discriminate].
    intros H. inversion H; subst w'. clear H.
    destruct (set_outerHTML_keeps_node _ _ _ _ Hset) as [Hnode Hthis].
    assert (Ha1 : active (this w1) = true) by (rewrite Hthis; exact Ha).
    split; [apply inspectElement_active, Ha1 |].
    split; [rewrite inspectElement_host; exact Hnode |].
    apply inspected, Ha1.
Qed.

Lemma ch_overwrites_id_and_className_witness :
  exists w',
    ch (Sample.change "bar") "id" Sample.inspecting = Returned tt w'
    /\ element_id (nodes (document (host w')) 2%nat) = "bar"%string
    /\ selected (this w') = Some 2%nat
    /\ innerHTML (window (this w'))
       = render (id (this w')) (tab_name (tab (this w'))) (view_of 2%nat w')
    /\ mentions " #bar ." (innerHTML (window (this w')))
    /\ (tab (this Sample.inspecting) = display ->
        mentions ("ID: <input onchange=" +++ call "inspector-u" "ch" "id" +++ " value=" +++ q "bar")
                 (innerHTML (window (this w')))).
Proof.
  apply (proj1 (ch_overwrites_id_and_className (Sample.change "bar") 2%nat Sample.inspecting
                  eq_refl eq_refl)).
Defined.

(** C2, where the code departs from it: an edit of the raw-markup field.
    The [div] of the sample page is under inspection, on the display tab,
    and the field is changed to [<p>new</p>].  [ch] assigns the text to
    [outerHTML] as it assigns an id, but this setter replaces the node in
    the page: the selected element is the node that was taken out, its
    markup is what it was and not the new text, and the panel rendered
    after the edit is rendered from that node: it shows what it showed
    before. *)
Lemma raw_markup_edit_not_reflected :
  exists w',
    ch (Sample.change "<p>new</p>") "outerHTML" Sample.inspecting = Returned tt w'
    /\ replaced (document (host w')) = [(2%nat, "<p>new</p>"%string)]
    /\ selected (this w') = Some 2%nat
    /\ outerHTML (nodes (document (host w')) 2%nat) <> "<p>new</p>"%string
    /\ outerHTML (nodes (document (host w')) 2%nat)
       = outerHTML (nodes (document (host Sample.inspecting)) 2%nat)
    /\ innerHTML (window (this w')) = innerHTML (window (this Sample.inspecting))
    /\ parentNode (nodes (document (host w')) 2%nat) = NoParent
    /\ element (view_of 2%nat w') = nodes (document (host w')) 2%nat
    /\ innerHTML (window (this w'))
       = render (id (this w')) (tab_name (tab (this w'))) (view_of 2%nat w').
Proof.
  eexists. split; [vm_compute; reflexivity |].
  split; [reflexivity |]. split; [reflexivity |].
  split; [vm_compute; discriminate |].
  split; [vm_compute; reflexivity |].
  split; [vm_compute; reflexivity |].
  split; [vm_compute; reflexivity |].
  split; vm_compute; reflexivity.
Qed.

(* ================================================================== *)
(** ** Properties of the session's markers and of storage

    The statements of the program that write a field of the inspector, a
    marker attribute of the document root or a storage area are few:
    [toggle], the side-mode switch, [inspectElement] and the choice of a
    tab.  A property of those fields that these four keep is kept along
    every trace. *)
(* ================================================================== *)

Create HintDb session.

Section Session.

Variable P : World -> Prop.

Hypothesis P_frame :
  forall w w' : World,
    this w' = this w ->
    data_mode (document (host w')) = data_mode (document (host w)) ->
    inspector_side_mode (document (host w')) = inspector_side_mode (document (host w)) ->
    stored w' = stored w ->
    P w -> P w'.

Hypothesis P_toggle : forall w : World, P w -> P (toggle w).

Hypothesis P_side : forall w : World, P w -> P (toggle_side_mode w).

Hypothesis P_tab : forall (t : Tab) (w : World), P w -> P (select_tab t w).

Hypothesis P_inspect :
  forall (el : ElemRef) (position : Position) (w : World),
    P w -> P (inspectElement el position w).

Ltac untouched H := eapply P_frame; [| | | | exact H]; reflexivity.

Lemma session_push (v : JsValue) (w : World) : P w -> P (push v w).
Proof. intros H. untouched H. Qed.

Lemma session_wrapper (c : Channel) (v : JsValue) (w : World) : P w -> P (wrapper c v w).
Proof.
  intros H. unfold wrapper. destruct (is_undefined v); [exact H |].
  apply session_push. untouched H.
Qed.

Lemma session_on_contextmenu (ev : Event) (w : World) : P w -> P (on_contextmenu ev w).
Proof. unfold on_contextmenu. destruct (_ || _ || _); [auto | apply P_inspect]. Qed.

Lemma session_on_keydown (ev : Event) (w : World) : P w -> P (on_keydown ev w).
Proof.
  unfold on_keydown. destruct (negb _); [auto |].
  destruct (String.eqb _ _); [apply P_toggle | auto].
Qed.

Lemma session_set_property (r : ElemRef) (dataName v : string) :
  stable P (set_property r dataName v).
Proof.
  intros w H. unfold set_property, set_outerHTML.
  repeat match goal with
         | |- context [if ?b then _ else _] => destruct b
         | |- context [match parentNode ?e with _ => _ end] => destruct (parentNode e)
         end; simpl; try exact H; untouched H.
Qed.

Lemma session_performance_mark (n : string) (w : World) : P w -> P (performance_mark n w).
Proof. intros H. untouched H. Qed.

Lemma session_performance_measure (n a b : string) : stable P (performance_measure n a b).
Proof.
  intros w H. unfold performance_measure.
  destruct (latest_mark a _); [| exact H].
  destruct (latest_mark b _); [| exact H].
  simpl. untouched H.
Qed.

Lemma session_filter_timeline (keep : PerformanceEntry -> bool) (w : World) :
  P w -> P (filter_timeline keep w).
Proof. intros H. untouched H. Qed.

Lemma session_console_calls (l : list (Channel * JsValue)) (w : World) :
  P w -> P (console_calls l w).
Proof.
  unfold console_calls. revert w. induction l as [| cv l IH]; intros w H; simpl.
  - exact H.
  - apply IH, session_wrapper, H.
Qed.

Lemma session_run_script (text : string) : stable P (run_script text).
Proof.
  intros w H. unfold run_script.
  destruct (thrown _); simpl; apply session_console_calls, H.
Qed.

Lemma session_log_results :
  stable P (fun w => log_results (getEntriesByName "ins-s-to-e-measure" w) w).
Proof.
  intros w H. unfold log_results.
  destruct (getEntriesByName _ w); simpl; [exact H |].
  apply session_wrapper; exact H.
Qed.

#[local] Hint Resolve session_wrapper session_set_property session_performance_mark
  session_performance_measure session_filter_timeline session_run_script
  session_log_results P_side P_tab P_inspect : session.

Lemma session_special (ev : Event) (dataName : string) : stable P (special ev dataName).
Proof.
  unfold special, console_log, clearMarks, clearMeasures.
  repeat match goal with
         | |- context [if ?b then _ else _] => destruct b
         end;
    statements; auto with session.
Qed.

Lemma session_sp (ev : Event) (dataName : string) : stable P (sp ev dataName).
Proof.
  intros w H. unfold sp. destruct (selected (this w)); [| exact H].
  revert w H. apply stable_bind; [apply session_special | intros _].
  apply stable_exec. intros w. apply P_inspect.
Qed.

Lemma session_ch (ev : Event) (dataName : string) : stable P (ch ev dataName).
Proof.
  intros w H. unfold ch. destruct (selected (this w)); [| exact H].
  revert w H. apply stable_bind; [apply session_set_property | intros _].
  apply stable_exec. intros w. apply P_inspect.
Qed.

Lemma session_step (w : World) (o : Op) : P w -> P (step w o).
Proof.
  destruct o; simpl.
  - apply session_wrapper.
  - apply session_push.
  - apply session_push.
  - apply P_toggle.
  - apply P_inspect.
  - apply session_on_contextmenu.
  - apply session_on_keydown.
  - apply stable_dispatch; [apply session_ch | intros e w'; apply session_push].
  - apply stable_dispatch; [apply session_sp | intros e w'; apply session_push].
Qed.

Lemma session_run (ops : list Op) (w : World) : P w -> P (run ops w).
Proof. apply run_invariant. intros w' o. apply session_step. Qed.

End Session.

(** X1. The inspect-mode marker follows [active]: on a page whose root does
    not carry [data-mode="inspect"] when the inspector is made, the root
    carries it, in every state any trace reaches, exactly while the
    inspector is active. *)
Theorem inspect_mode_marks_active (uuid : string) (l : Logs) (h : Host) (ops : list Op) :
  is_inspect (data_mode (document h)) = false ->
  marker_tracks_active (run ops (construct uuid l h)).
Proof.
  intros H0. apply session_run.
  - unfold marker_tracks_active. intros w w' Ht Hd _ _ H. rewrite Ht, Hd. exact H.
  - unfold marker_tracks_active. intros w H. simpl.
    rewrite is_inspect_toggle, H. reflexivity.
  - intros w H. exact H.
  - intros t w H. exact H.
  - unfold marker_tracks_active. intros el position w H.
    rewrite inspectElement_host. unfold inspectElement.
    destruct (active (this w)) eqn:Ha; simpl; rewrite ?Ha; exact H.
  - unfold marker_tracks_active. simpl. exact H0.
Qed.

Lemma inspect_mode_marks_active_witness :
  marker_tracks_active
    (run [Toggle; ContextMenu (Sample.click 10 20); KeyDown Sample.escape_key]
         (construct "u" {| general := []; f := [] |} Sample.page)).
Proof.
  apply (inspect_mode_marks_active "u" {| general := []; f := [] |} Sample.page).
  reflexivity.
Defined.

(** X2. The two side-mode attributes stay together: on a page whose root has
    no [inspector-side-mode] attribute when the inspector is made, the
    panel has [side-mode] exactly when the root has [inspector-side-mode],
    in every state any trace reaches. *)
Theorem side_mode_attributes_agree (uuid : string) (l : Logs) (h : Host) (ops : list Op) :
  inspector_side_mode (document h) = false ->
  side_modes_agree (run ops (construct uuid l h)).
Proof.
  intros H0. apply session_run.
  - unfold side_modes_agree. intros w w' Ht _ Hs _ H. rewrite Ht, Hs. exact H.
  - unfold side_modes_agree. intros w H. simpl. rewrite H. reflexivity.
  - unfold side_modes_agree. intros w H. simpl. rewrite H. reflexivity.
  - intros t w H. exact H.
  - unfold side_modes_agree. intros el position w H.
    rewrite inspectElement_host. unfold inspectElement.
    destruct (negb (active (this w))); simpl; exact H.
  - unfold side_modes_agree. simpl. rewrite H0. reflexivity.
Qed.

Lemma side_mode_attributes_agree_witness :
  side_modes_agree
    (run [Toggle; ContextMenu (Sample.click 10 20); Sp (Sample.change EmptyString) "sideMode"]
         (construct "u" {| general := []; f := [] |} Sample.page)).
Proof.
  apply (side_mode_attributes_agree "u" {| general := []; f := [] |} Sample.page).
  reflexivity.
Defined.

(** X3. A selection is never given up: once an element is selected, an
    element is selected after every trace, whatever it is made of
    ([toggle] and the Escape key leave the selection in place). *)
Theorem selection_is_kept (ops : list Op) (w : World) :
  selected (this w) <> None -> selected (this (run ops w)) <> None.
Proof.
  apply (session_run (fun w => selected (this w) <> None)).
  - intros w0 w' Ht _ _ _ H. rewrite Ht. exact H.
  - intros w0 H. exact H.
  - intros w0 H. exact H.
  - intros t w0 H. exact H.
  - intros el position w0 H. unfold inspectElement.
    destruct (negb (active (this w0))); simpl; [exact H | discriminate].
Qed.

Lemma selection_is_kept_witness :
  selected (this (run [KeyDown Sample.escape_key; Toggle; Sp (Sample.click 1 1) "stamp"]
                      Sample.inspecting)) <> None.
Proof.
  apply (selection_is_kept _ Sample.inspecting). vm_compute. discriminate.
Defined.

(** X4. The program reads the two storage areas and the cookie string and
    never writes them: after every trace they are what they were. *)
Theorem storage_is_only_read (ops : list Op) (w : World) :
  stored (run ops w) = stored w.
Proof.
  apply (session_run (fun w' => stored w' = stored w)).
  - intros w0 w' _ _ _ Hs H. rewrite Hs. exact H.
  - intros w0 H. exact H.
  - intros w0 H. exact H.
  - intros t w0 H. exact H.
  - intros el position w0 H. unfold stored in *. rewrite inspectElement_host. exact H.
  - reflexivity.
Qed.

(* ================================================================== *)
(** ** More on the log *)
(* ================================================================== *)

(** X5. The log sequence only grows at its end: after every trace the entries
    that were there are still there, unchanged and in place, followed by
    the entries the trace added. *)
Theorem log_is_append_only (ops : list Op) (w : World) :
  exists added, general (logs (run ops w)) = general (logs w) ++ added.
Proof.
  apply (kept_run (fun w' => exists added, general (logs w') = general (logs w) ++ added)).
  - intros w0 w' Hg _ _ _ [added H]. exists added. rewrite Hg. exact H.
  - intros v w0 [added H]. eexists. rewrite push_general, H, <- app_assoc. reflexivity.
  - intros w0 H. exact H.
  - exists []. symmetry. apply app_nil_r.
Qed.

Lemma calls_forwarded (l : list (Channel * JsValue)) (w : World) :
  f (logs (run (calls l) w)) = f (logs w) ++ filter (fun cv => defined (snd cv)) l.
Proof.
  revert w. induction l as [| [c v] l IH]; intros w; simpl.
  - symmetry. apply app_nil_r.
  - fold (calls l). fold (run (calls l) (wrapper c v w)). rewrite IH.
    unfold defined at 2. destruct (is_undefined v) eqn:Hv; simpl.
    + unfold wrapper. rewrite Hv. reflexivity.
    + rewrite wrapper_defined by exact Hv. simpl. rewrite <- app_assoc. reflexivity.
Qed.

(** X6. What reaches the original channels and what is logged are the same
    calls: a sequence of calls of the wrapped channels forwards, in call
    order and each to its own channel, the calls with a defined payload,
    and the payloads forwarded are the payloads logged. *)
Theorem forwarded_calls_are_the_logged_ones (l : list (Channel * JsValue)) (w : World) :
  f (logs (run (calls l) w)) = f (logs w) ++ filter (fun cv => defined (snd cv)) l
  /\ (f (logs w) = [] -> general (logs w) = [] ->
      map snd (f (logs (run (calls l) w))) = map data (general (logs (run (calls l) w)))).
Proof.
  split; [apply calls_forwarded |].
  intros Hf Hg. rewrite calls_forwarded, calls_data, Hf, Hg. simpl.
  induction l as [| [c v] l IH]; simpl; [reflexivity |].
  destruct (defined v); simpl; rewrite IH; reflexivity.
Qed.

Lemma forwarded_calls_are_the_logged_ones_witness :
  map snd (f (logs (run (calls [(log, JString "a"); (warn, JUndefined); (error, JNull)])
                        (initial "u" Sample.page))))
  = map data (general (logs (run (calls [(log, JString "a"); (warn, JUndefined); (error, JNull)])
                                 (initial "u" Sample.page)))).
Proof.
  apply (proj2 (forwarded_calls_are_the_logged_ones
                  [(log, JString "a"); (warn, JUndefined); (error, JNull)]
                  (initial "u" Sample.page))); reflexivity.
Defined.

(** X7. The two window listeners have no guard: an uncaught error or an
    unhandled rejection is logged whatever its payload, [undefined]
    included, where a wrapped channel would drop it; and neither listener
    passes anything to the original channels. *)
Theorem listeners_log_every_payload (v : JsValue) (w : World) :
  (exists t, now w <= t
             /\ general (logs (on_error v w)) = general (logs w) ++ [{| ts := t; data := v |}]
             /\ general (logs (on_unhandledrejection v w))
                = general (logs w) ++ [{| ts := t; data := v |}])
  /\ f (logs (on_error v w)) = f (logs w)
  /\ f (logs (on_unhandledrejection v w)) = f (logs w)
  /\ (v = JUndefined ->
      forall c, List.length (general (logs (wrapper c v w)))
                < List.length (general (logs (on_error v w))))%nat.
Proof.
  split; [| split; [| split]].
  - exists (clock (tick (performance (host w)))). split.
    + apply (tick_later (performance (host w))).
    + split; reflexivity.
  - reflexivity.
  - reflexivity.
  - intros -> c. unfold on_error. change (wrapper c JUndefined w) with w.
    rewrite push_general, length_app. simpl. lia.
Qed.

Lemma listeners_log_every_payload_witness :
  (List.length (general (logs (wrapper warn JUndefined (initial "u" Sample.page))))
   < List.length (general (logs (on_error JUndefined (initial "u" Sample.page)))))%nat.
Proof.
  apply (proj2 (proj2 (proj2 (listeners_log_every_payload JUndefined (initial "u" Sample.page))))
           eq_refl warn).
Defined.

Lemma logs_markup_from (acc : string) (l : list LogEntry) :
  fold_left (fun _logs e =>
               _logs +++ "<div class=" +++ q "inspect.element" +++ ">{" +++ show (ts e)
                     +++ "} " +++ toString (data e) +++ "</div>")
            l acc
  = acc +++ join (map log_row l).
Proof.
  revert acc. induction l as [| e l IH]; intros acc; simpl.
  - induction acc as [| c acc IHa]; simpl; [reflexivity | rewrite <- IHa; reflexivity].
  - rewrite IH. fold (log_row e). rewrite append_assoc. reflexivity.
Qed.

Lemma join_app (a b : list string) : join (a ++ b) = join a +++ join b.
Proof.
  induction a as [| s a IH]; simpl; [reflexivity |].
  rewrite IH, append_assoc. reflexivity.
Qed.

Lemma join_mentions (s : string) (l : list string) : In s l -> mentions s (join l).
Proof.
  induction l as [| a l IH]; simpl; [intros [] |].
  intros [-> | H].
  - exists EmptyString, (join l). reflexivity.
  - apply mentions_right, IH, H.
Qed.

(** X8. The console tab has one row for each entry of the log sequence, in
    the order of the sequence, and nothing between the rows; so every
    entry of the log is to be read in the console tab. *)
Theorem console_rows_follow_the_log (i : string) (l : list LogEntry) :
  logs_markup l = join (map log_row l)
  /\ (forall l1 l2, logs_markup (l1 ++ l2) = logs_markup l1 +++ logs_markup l2)
  /\ (forall e, In e l -> mentions (log_row e) (console_view i l)).
Proof.
  assert (Hj : forall l', logs_markup l' = join (map log_row l'))
    by (intros l'; unfold logs_markup; rewrite logs_markup_from; reflexivity).
  split; [apply Hj | split].
  - intros l1 l2. rewrite !Hj, map_app. apply join_app.
  - intros e He. unfold console_view. apply mentions_right, mentions_left.
    rewrite Hj. apply join_mentions, in_map, He.
Qed.

Lemma console_rows_follow_the_log_witness :
  mentions (log_row {| ts := 7; data := JString "late" |})
           (console_view "inspector-u" [{| ts := 3; data := JNull |};
                                        {| ts := 7; data := JString "late" |}]).
Proof.
  apply (proj2 (proj2 (console_rows_follow_the_log "inspector-u"
                         [{| ts := 3; data := JNull |}; {| ts := 7; data := JString "late" |}]))).
  simpl. right. left. reflexivity.
Defined.

(* ================================================================== *)
(** ** The listeners of the page *)
(* ================================================================== *)

(** X9. After the Escape key the inspector is off and its panel hidden, in
    whatever state a trace has left it; the selection stays, and any other
    key changes nothing. *)
Theorem escape_switches_off (uuid : string) (l : Logs) (h : Host) (ops : list Op) (ev : Event) :
  key ev = "Escape"%string ->
  active (this (on_keydown ev (run ops (construct uuid l h)))) = false
  /\ rendered (on_keydown ev (run ops (construct uuid l h))) = false
  /\ selected (this (on_keydown ev (run ops (construct uuid l h))))
     = selected (this (run ops (construct uuid l h)))
  /\ (forall ev', key ev' <> "Escape"%string ->
                  on_keydown ev' (run ops (construct uuid l h)) = run ops (construct uuid l h)).
Proof.
  intros Hk.
  pose proof (shown_run ops _ (shown_construct uuid l h)) as Hs. unfold shown in Hs.
  generalize dependent (run ops (construct uuid l h)). intros w Hs.
  unfold on_keydown. rewrite Hk. simpl String.eqb.
  destruct (active (this w)) eqn:Ha; simpl negb; cbv iota.
  - split; [simpl; rewrite Ha; reflexivity |].
    split; [rewrite rendered_toggle, Hs; reflexivity |].
    split; [reflexivity |].
    intros ev' Hk'. apply String.eqb_neq in Hk'. rewrite Hk'. reflexivity.
  - split; [exact Ha |]. split; [exact Hs |]. split; [reflexivity |].
    intros ev' _. reflexivity.
Qed.

Lemma escape_switches_off_witness :
  active (this (on_keydown Sample.escape_key
                  (run [Toggle; ContextMenu (Sample.click 10 20)]
                       (construct "u" {| general := []; f := [] |} Sample.page)))) = false.
Proof.
  apply (escape_switches_off "u" {| general := []; f := [] |} Sample.page
           [Toggle; ContextMenu (Sample.click 10 20)] Sample.escape_key).
  reflexivity.
Defined.

Lemma contains_In (tok : string) (l : list string) : contains tok l = true <-> In tok l.
Proof.
  unfold contains. rewrite existsb_exists. split.
  - intros (s & Hin & He). apply String.eqb_eq in He. subst. exact Hin.
  - intros H. exists tok. split; [exact H | apply String.eqb_refl].
Qed.

(** X10. A right click on the inspector's own markup is left to the browser:
    when the node clicked carries the class [inspect.core] among its
    classes, or has the id of the inspector, nothing changes, as when the
    inspector is off.  On any other node, while active, the node becomes
    the selection and the panel is rendered for it. *)
Theorem contextmenu_spares_the_panel (ev : Event) (w : World) :
  (active (this w) = false
   \/ In "inspect.core"%string (tokens (className (nodes (document (host w)) (target ev))))
   \/ element_id (nodes (document (host w)) (target ev)) = id (this w) ->
   on_contextmenu ev w = w)
  /\ (active (this w) = true ->
      ~ In "inspect.core"%string (tokens (className (nodes (document (host w)) (target ev)))) ->
      element_id (nodes (document (host w)) (target ev)) <> id (this w) ->
      selected (this (on_contextmenu ev w)) = Some (target ev)
      /\ innerHTML (window (this (on_contextmenu ev w)))
         = render (id (this w)) (tab_name (tab (this w))) (view_of (target ev) w)
      /\ logs (on_contextmenu ev w) = logs w
      /\ host (on_contextmenu ev w) = host w).
Proof.
  unfold on_contextmenu. split.
  - intros [Ha | [Hc | Hi]].
    + rewrite Ha. reflexivity.
    + apply contains_In in Hc. rewrite Hc, orb_true_r. reflexivity.
    + apply String.eqb_eq in Hi. rewrite Hi, orb_true_r. reflexivity.
  - intros Ha Hc Hi.
    rewrite <- contains_In in Hc. apply not_true_is_false in Hc.
    apply String.eqb_neq in Hi. rewrite Ha, Hc, Hi. simpl.
    unfold inspectElement. rewrite Ha. simpl. repeat split.
Qed.

Lemma contextmenu_spares_the_panel_witness :
  on_contextmenu {| target := 5%nat; value := EmptyString; pageX := Some 1; pageY := Some 1;
                    key := EmptyString |}
                 (write_node 5%nat
                    {| nodeName := "DIV";
                       attributes := [("class", "inspect.element inspect.core")]%string;
                       children := EmptyString; parentNode := NoParent; expando := [] |}
                    Sample.inspecting)
  = write_node 5%nat
      {| nodeName := "DIV";
         attributes := [("class", "inspect.element inspect.core")]%string;
         children := EmptyString; parentNode := NoParent; expando := [] |}
      Sample.inspecting.
Proof.
  apply (proj1 (contextmenu_spares_the_panel _ _)).
  right. left. vm_compute. right. left. reflexivity.
Defined.

(* ================================================================== *)
(** ** Edits outside the usual case *)
(* ================================================================== *)

(** X11. [ch] does not look at [active].  With an element selected and the
    inspector off, an edit of the id or class-name field still overwrites
    the property of the element; the panel, the log and the rest of the
    inspector stay as they were. *)
Theorem ch_edits_while_inactive (ev : Event) (sel : ElemRef) (w : World) :
  selected (this w) = Some sel ->
  active (this w) = false ->
  (exists w', ch ev "id" w = Returned tt w'
              /\ element_id (nodes (document (host w')) sel) = value ev
              /\ this w' = this w /\ logs w' = logs w)
  /\ (exists w', ch ev "className" w = Returned tt w'
                 /\ className (nodes (document (host w')) sel) = value ev
                 /\ this w' = this w /\ logs w' = logs w).
Proof.
  intros Hsel Ha. split.
  - eexists. split; [eapply ch_written; [exact Hsel | reflexivity] |].
    unfold inspectElement. simpl active. rewrite Ha. simpl.
    rewrite update_same. unfold element_id. simpl. rewrite getAttribute_setAttribute.
    repeat split.
  - eexists. split; [eapply ch_written; [exact Hsel | reflexivity] |].
    unfold inspectElement. simpl active. rewrite Ha. simpl.
    rewrite update_same. unfold className. simpl. rewrite getAttribute_setAttribute.
    repeat split.
Qed.

Lemma ch_edits_while_inactive_witness :
  exists w', ch (Sample.change "bar") "id" (toggle Sample.inspecting) = Returned tt w'
             /\ element_id (nodes (document (host w')) 2%nat) = "bar"%string
             /\ this w' = this (toggle Sample.inspecting)
             /\ logs w' = logs (toggle Sample.inspecting).
Proof.
  apply (proj1 (ch_edits_while_inactive (Sample.change "bar") 2%nat (toggle Sample.inspecting)
                  eq_refl eq_refl)).
Defined.

(** X12. An edit of the raw markup changes the page only for a node that has an
    element as its parent.  For the document's root the setter throws: the
    exception leaves [ch] before the panel is rendered again and is logged
    by the [error] listener; for a node out of the page nothing is
    replaced.  In both cases the document is what it was. *)
Theorem raw_markup_needs_a_parent_element (ev : Event) (sel : ElemRef) (w : World) :
  selected (this w) = Some sel ->
  (parentNode (nodes (document (host w)) sel) = DocumentParent ->
   ch ev "outerHTML" w = Threw NoModificationAllowedError w
   /\ step w (Ch ev "outerHTML") = on_error NoModificationAllowedError w
   /\ this (step w (Ch ev "outerHTML")) = this w
   /\ document (host (step w (Ch ev "outerHTML"))) = document (host w))
  /\ (parentNode (nodes (document (host w)) sel) = NoParent ->
      ch ev "outerHTML" w = Returned tt (inspectElement sel (at_pointer ev) w)
      /\ document (host (step w (Ch ev "outerHTML"))) = document (host w)).
Proof.
  intros Hsel. split; intros Hp.
  - assert (Hch : ch ev "outerHTML" w = Threw NoModificationAllowedError w).
    { unfold ch. rewrite Hsel. unfold bind.
      change (set_property sel "outerHTML" (value ev) w) with (set_outerHTML sel (value ev) w).
      unfold set_outerHTML. rewrite Hp. reflexivity. }
    split; [exact Hch |]. simpl step. unfold dispatch. rewrite Hch. repeat split.
  - assert (Hch : ch ev "outerHTML" w = Returned tt (inspectElement sel (at_pointer ev) w)).
    { apply (ch_written ev "outerHTML" sel w w Hsel).
      change (set_property sel "outerHTML" (value ev) w) with (set_outerHTML sel (value ev) w).
      unfold set_outerHTML. rewrite Hp. reflexivity. }
    split; [exact Hch |]. simpl step. unfold dispatch. rewrite Hch.
    rewrite inspectElement_host. reflexivity.
Qed.

Lemma raw_markup_needs_a_parent_element_witness :
  step (run [ContextMenu {| target := 0%nat; value := EmptyString; pageX := Some 1;
                            pageY := Some 1; key := EmptyString |}] Sample.inspecting)
       (Ch (Sample.change "<html></html>") "outerHTML")
  = on_error NoModificationAllowedError
      (run [ContextMenu {| target := 0%nat; value := EmptyString; pageX := Some 1;
                           pageY := Some 1; key := EmptyString |}] Sample.inspecting).
Proof.
  apply (proj1 (raw_markup_needs_a_parent_element (Sample.change "<html></html>") 0%nat
                  (run [ContextMenu {| target := 0%nat; value := EmptyString; pageX := Some 1;
                                       pageY := Some 1; key := EmptyString |}] Sample.inspecting)
                  eq_refl) eq_refl).
Defined.

(* ================================================================== *)
(** ** Special actions, case by case *)
(* ================================================================== *)

Lemma special_tab (ev : Event) (t : Tab) : special ev (tab_name t) = exec (select_tab t).
Proof. destruct t; reflexivity. Qed.

Lemma sp_tab (ev : Event) (t : Tab) (sel : ElemRef) (w : World) :
  selected (this w) = Some sel ->
  step w (Sp ev (tab_name t)) = inspectElement sel (at_pointer ev) (select_tab t w).
Proof.
  intros Hsel. simpl. unfold dispatch, sp. rewrite Hsel, special_tab. reflexivity.
Qed.

Lemma view_of_same (el : ElemRef) (w w' : World) :
  host w' = host w -> logs w' = logs w ->
  side_mode (window (this w')) = side_mode (window (this w)) ->
  view_of el w' = view_of el w.
Proof.
  intros Hh Hl Hs. unfold view_of. rewrite Hh, Hl, Hs.
  rewrite (results_of_host "ins-mark" w' w Hh). reflexivity.
Qed.

(** What a run of tab clicks keeps. *)
Lemma switches_keep (l : list (Event * Tab)) (sel : ElemRef) (w : World) :
  selected (this w) = Some sel ->
  active (this w) = true ->
  selected (this (run (switches l) w)) = Some sel
  /\ active (this (run (switches l) w)) = true
  /\ id (this (run (switches l) w)) = id (this w)
  /\ side_mode (window (this (run (switches l) w))) = side_mode (window (this w))
  /\ host (run (switches l) w) = host w
  /\ logs (run (switches l) w) = logs w.
Proof.
  revert w. induction l as [| [ev t] l IH]; intros w Hsel Ha; simpl.
  - repeat split; assumption.
  - fold (switches l).
    change (dispatch (sp ev (tab_name t)) w) with (step w (Sp ev (tab_name t))).
    rewrite (sp_tab ev t sel w Hsel).
    set (w1 := inspectElement sel (at_pointer ev) (select_tab t w)).
    assert (H1 : selected (this w1) = Some sel) by (apply inspectElement_active; exact Ha).
    assert (H2 : active (this w1) = true)
      by (unfold w1, inspectElement; simpl; rewrite Ha; reflexivity).
    fold (run (switches l) w1).
    destruct (IH w1 H1 H2) as (Hs & Hact & Hid & Hside & Hhost & Hlogs).
    split; [exact Hs |]. split; [exact Hact |].
    split; [rewrite Hid; unfold w1; rewrite inspectElement_id; reflexivity |].
    split; [rewrite Hside; unfold w1, inspectElement; simpl; rewrite Ha; reflexivity |].
    split; [rewrite Hhost; unfold w1; rewrite inspectElement_host; reflexivity |].
    rewrite Hlogs. unfold w1. rewrite inspectElement_logs. reflexivity.
Qed.

(** X13. The panel after a run of clicks on the tab buttons is the panel of the
    last tab clicked, rendered from the element, log and page as they are:
    the clicks before it leave no trace, and the log, the page and the
    selection are untouched.  So going through the tabs and back to the
    first shows again what the first showed. *)
Theorem last_tab_click_decides (l : list (Event * Tab)) (ev : Event) (t : Tab)
        (sel : ElemRef) (w : World) :
  selected (this w) = Some sel ->
  active (this w) = true ->
  tab (this (run (switches (l ++ [(ev, t)])) w)) = t
  /\ innerHTML (window (this (run (switches (l ++ [(ev, t)])) w)))
     = render (id (this w)) (tab_name t) (view_of sel w)
  /\ selected (this (run (switches (l ++ [(ev, t)])) w)) = Some sel
  /\ logs (run (switches (l ++ [(ev, t)])) w) = logs w
  /\ host (run (switches (l ++ [(ev, t)])) w) = host w.
Proof.
  intros Hsel Ha.
  destruct (switches_keep l sel w Hsel Ha) as (Hs & Hact & Hid & Hside & Hhost & Hlogs).
  unfold switches. rewrite map_app. fold (switches l). simpl map.
  rewrite run_snoc. simpl fst. simpl snd.
  rewrite (sp_tab ev t sel _ Hs).
  set (w1 := run (switches l) w) in *.
  unfold inspectElement. simpl active. rewrite Hact. simpl.
  rewrite Hid.
  rewrite (view_of_same sel w (select_tab t w1)) by (simpl; assumption).
  repeat split; assumption.
Qed.

Lemma last_tab_click_decides_witness :
  innerHTML (window (this (run (switches [(Sample.click 1 1, console);
                                          (Sample.click 2 2, storage);
                                          (Sample.click 3 3, performance_tab);
                                          (Sample.click 4 4, display)])
                               Sample.inspecting)))
  = render (id (this Sample.inspecting)) (tab_name display) (view_of 2%nat Sample.inspecting).
Proof.
  apply (last_tab_click_decides [(Sample.click 1 1, console); (Sample.click 2 2, storage);
                                 (Sample.click 3 3, performance_tab)]
           (Sample.click 4 4) display 2%nat Sample.inspecting eq_refl eq_refl).
Defined.

Lemma console_calls_run (l : list (Channel * JsValue)) (w : World) :
  console_calls l w = run (calls l) w.
Proof.
  unfold console_calls, run, calls. revert w.
  induction l as [| cv l IH]; intros w; simpl; [reflexivity | apply IH].
Qed.

Lemma console_calls_this (l : list (Channel * JsValue)) (w : World) :
  this (console_calls l w) = this w.
Proof.
  unfold console_calls. revert w. induction l as [| cv l IH]; intros w; simpl.
  - reflexivity.
  - rewrite IH. apply wrapper_this.
Qed.

(** X14. [runjs] logs the text typed, marked [~>], before it runs it; the
    script runs next, and what it says on the console channels is logged
    after the echo, in order.  When the script returns, the panel is
    rendered again from the world the script has left; when it throws, the
    exception leaves [sp] at once, so [sp] renders nothing, and the [error]
    listener logs the exception after all that. *)
Theorem runjs_echoes_then_runs (ev : Event) (sel : ElemRef) (w : World) :
  selected (this w) = Some sel ->
  (thrown (evaluate (host w) ("(() => { " +++ value ev +++ " })();")) = None ->
   step w (Sp ev "runjs")
   = inspectElement sel (at_pointer ev)
       (console_calls (said (evaluate (host w) ("(() => { " +++ value ev +++ " })();")))
          (console_log (JString ("~> " +++ value ev)) w)))
  /\ (forall e,
         thrown (evaluate (host w) ("(() => { " +++ value ev +++ " })();")) = Some e ->
         step w (Sp ev "runjs")
         = on_error e
             (console_calls (said (evaluate (host w) ("(() => { " +++ value ev +++ " })();")))
                (console_log (JString ("~> " +++ value ev)) w))
         /\ this (step w (Sp ev "runjs")) = this w)
  /\ map data (general (logs (step w (Sp ev "runjs"))))
     = map data (general (logs w))
         ++ JString ("~> " +++ value ev)
         :: filter defined
              (map snd (said (evaluate (host w) ("(() => { " +++ value ev +++ " })();"))))
         ++ match thrown (evaluate (host w) ("(() => { " +++ value ev +++ " })();")) with
            | Some e => [e]
            | None => []
            end.
Proof.
  intros Hsel.
  set (o := evaluate (host w) ("(() => { " +++ value ev +++ " })();")).
  set (echoed := console_log (JString ("~> " +++ value ev)) w).
  assert (Hsp : sp ev "runjs" w
                = match thrown o with
                  | None => Returned tt (inspectElement sel (at_pointer ev)
                                           (console_calls (said o) echoed))
                  | Some e => Threw e (console_calls (said o) echoed)
                  end).
  { unfold sp. rewrite Hsel.
    change (special ev "runjs")
      with (exec (console_log (JString ("~> " +++ value ev))) ;;; run_script (value ev)).
    unfold bind, exec, run_script.
    change (evaluate (host (console_log (JString ("~> " +++ value ev)) w))
                     ("(() => { " +++ value ev +++ " })();")) with o.
    fold echoed. destruct (thrown o); reflexivity. }
  assert (Hdata : map data (general (logs (console_calls (said o) echoed)))
                  = map data (general (logs w))
                      ++ JString ("~> " +++ value ev) :: filter defined (map snd (said o))).
  { rewrite console_calls_run, calls_data. unfold echoed, console_log.
    rewrite wrapper_defined by reflexivity. rewrite push_general, map_app, <- app_assoc.
    reflexivity. }
  simpl step. unfold dispatch. rewrite Hsp. split; [| split].
  - intros Hr. rewrite Hr. reflexivity.
  - intros e Hr. rewrite Hr. split; [reflexivity |].
    unfold on_error. change (this (push e (console_calls (said o) echoed)))
      with (this (console_calls (said o) echoed)).
    rewrite console_calls_this. reflexivity.
  - destruct (thrown o) as [e |].
    + unfold on_error. rewrite push_general, map_app, Hdata. simpl.
      rewrite <- app_assoc. reflexivity.
    + rewrite inspectElement_logs, Hdata, app_nil_r. reflexivity.
Qed.

Lemma runjs_echoes_then_runs_witness :
  (step Sample.inspecting (Sp (Sample.change "console.log('x')") "runjs")
   = inspectElement 2%nat (at_pointer (Sample.change "console.log('x')"))
       (console_calls [(log, JString "x")]
          (console_log (JString "~> console.log('x')") Sample.inspecting)))
  /\ (step Sample.inspecting (Sp (Sample.change "console.warn('w'); throw 1") "runjs")
      = on_error (JNumber 1)
          (console_calls [(warn, JString "w")]
             (console_log (JString "~> console.warn('w'); throw 1") Sample.inspecting))
      /\ this (step Sample.inspecting (Sp (Sample.change "console.warn('w'); throw 1") "runjs"))
         = this Sample.inspecting).
Proof.
  split.
  - apply (proj1 (runjs_echoes_then_runs (Sample.change "console.log('x')") 2%nat
                    Sample.inspecting eq_refl)).
    reflexivity.
  - apply (proj1 (proj2 (runjs_echoes_then_runs (Sample.change "console.warn('w'); throw 1")
                           2%nat Sample.inspecting eq_refl)) (JNumber 1)).
    reflexivity.
Defined.

(** X15. A [stamp] with no mark placed fails: [performance.measure] throws, so
    the tab is not changed and the panel not rendered again; the error is
    logged; and the end mark the action had already placed stays in the
    buffer, where it is no start mark for a later [stamp]. *)
Theorem stamp_without_mark_fails (ev : Event) (sel : ElemRef) (w : World) :
  selected (this w) = Some sel ->
  latest_mark "ins-mark" (timeline (performance (host w))) = None ->
  sp ev "stamp" w = Threw (SyntaxError "ins-mark") (performance_mark "ins-end-mark" w)
  /\ this (step w (Sp ev "stamp")) = this w
  /\ map data (general (logs (step w (Sp ev "stamp"))))
     = map data (general (logs w)) ++ [SyntaxError "ins-mark"]
  /\ timeline (performance (host (step w (Sp ev "stamp"))))
     = timeline (performance (host w))
         ++ [{| name := "ins-end-mark"; entryType := Mark;
                startTime := clock (tick (performance (host w))); duration := 0 |}]
  /\ latest_mark "ins-mark" (timeline (performance (host (step w (Sp ev "stamp"))))) = None.
Proof.
  intros Hsel Hnone.
  assert (Hsp : sp ev "stamp" w
                = Threw (SyntaxError "ins-mark") (performance_mark "ins-end-mark" w)).
  { unfold sp. rewrite Hsel, special_stamp. unfold bind at 1 2 3. unfold exec at 1.
    unfold performance_measure.
    change (timeline (performance (host (performance_mark "ins-end-mark" w))))
      with (timeline (performance (host w))
              ++ [{| name := "ins-end-mark"; entryType := Mark;
                     startTime := clock (tick (performance (host w))); duration := 0 |}]).
    rewrite latest_mark_snoc. simpl. rewrite Hnone. reflexivity. }
  split; [exact Hsp |]. simpl step. unfold dispatch. rewrite Hsp.
  split; [reflexivity |].
  split; [unfold on_error; rewrite push_general, map_app; reflexivity |].
  split; [reflexivity |].
  change (timeline (performance (host (on_error (SyntaxError "ins-mark")
                                         (performance_mark "ins-end-mark" w)))))
    with (timeline (performance (host w))
            ++ [{| name := "ins-end-mark"; entryType := Mark;
                   startTime := clock (tick (performance (host w))); duration := 0 |}]).
  rewrite latest_mark_snoc. simpl. exact Hnone.
Qed.

Lemma stamp_without_mark_fails_witness :
  sp (Sample.click 1 1) "stamp" Sample.inspecting
  = Threw (SyntaxError "ins-mark") (performance_mark "ins-end-mark" Sample.inspecting).
Proof.
  apply (stamp_without_mark_fails (Sample.click 1 1) 2%nat Sample.inspecting); reflexivity.
Defined.

(* ================================================================== *)
(** ** More on the performance tab *)
(* ================================================================== *)

Lemma marked_after_mark (el : ElemRef) (w w' : World) :
  host w' = host (performance_mark "ins-mark" w) -> marked (view_of el w') = true.
Proof.
  intros Hh. unfold view_of. simpl marked.
  rewrite (results_of_host "ins-mark" w' _ Hh). unfold getEntriesByName.
  change (timeline (performance (host (performance_mark "ins-mark" w))))
    with (timeline (performance (host w))
            ++ [{| name := "ins-mark"; entryType := Mark;
                   startTime := clock (tick (performance (host w))); duration := 0 |}]).
  rewrite filter_app. simpl. rewrite by_start_snoc.
  destruct (insert_by_start _ _) eqn:E; [destruct (insert_by_start_cons _ _ E) | reflexivity].
Qed.

Lemma performance_view_warns (i : string) :
  mentions "Mark already active!" (performance_view i true).
Proof.
  unfold performance_view. apply mentions_right, mentions_left.
  unfold row. apply mentions_right, mentions_right, mentions_right, mentions_left.
  apply mentions_right, mentions_left.
  exists EmptyString. eexists. reflexivity.
Qed.

(** X16. The performance tab tells whether a mark is pending.  After a [mark]
    action the pending flag is set, and the panel, when it is active on the
    performance tab, says that a mark is already active; after a [stamp]
    that completes the flag is cleared. *)
Theorem pending_mark_is_shown (ev : Event) (sel : ElemRef) (w : World) :
  selected (this w) = Some sel ->
  (exists w1,
      sp ev "mark" w = Returned tt w1
      /\ marked (view_of sel w1) = true
      /\ (active (this w) = true -> tab (this w) = performance_tab ->
          mentions "Mark already active!" (innerHTML (window (this w1)))))
  /\ (forall w2, sp ev "stamp" w = Returned tt w2 -> marked (view_of sel w2) = false).
Proof.
  intros Hsel. split.
  - exists (inspectElement sel (at_pointer ev) (performance_mark "ins-mark" w)).
    split; [unfold sp; rewrite Hsel, special_mark; reflexivity |].
    split; [apply (marked_after_mark sel w), inspectElement_host |].
    intros Ha Ht. rewrite inspected by exact Ha.
    rewrite inspectElement_tab, inspectElement_id.
    change (tab (this (performance_mark "ins-mark" w))) with (tab (this w)). rewrite Ht.
    unfold render. apply mentions_right. unfold tab_slot. simpl String.eqb. cbv iota.
    rewrite (marked_after_mark sel w) by apply inspectElement_host.
    apply performance_view_warns.
  - intros w2. unfold sp. rewrite Hsel, special_stamp. unfold bind, exec.
    destruct (performance_measure _ _ _ _) as [[] w1 | e w1]; [| discriminate].
    destruct (log_results _ _) as [[] w3 | e w3]; [| discriminate].
    intros H. inversion H; subst w2. clear H.
    unfold view_of. simpl marked. unfold getEntriesByName.
    rewrite inspectElement_host. simpl. rewrite cleared. reflexivity.
Qed.

Lemma pending_mark_is_shown_witness :
  exists w1,
    sp (Sample.click 1 2) "mark" Sample.timing = Returned tt w1
    /\ marked (view_of 2%nat w1) = true
    /\ mentions "Mark already active!" (innerHTML (window (this w1))).
Proof.
  destruct (proj1 (pending_mark_is_shown (Sample.click 1 2) 2%nat Sample.timing eq_refl))
    as (w1 & H1 & H2 & H3).
  exists w1. split; [exact H1 |]. split; [exact H2 |].
  apply H3; reflexivity.
Defined.

(** X17. The measure starts at the mark placed last.  With an element selected
    and no measure of the inspector's name in the buffer, a [mark] action
    followed by a [stamp] logs the reading of the clock at that [mark] as
    the start, older marks of the same name notwithstanding, and as the
    duration what the clock advanced until the end mark was placed. *)
Theorem stamp_measures_from_the_last_mark (ev1 ev2 : Event) (sel : ElemRef) (w : World) :
  selected (this w) = Some sel ->
  getEntriesByName "ins-s-to-e-measure" w = [] ->
  exists w1 w2 t,
    sp ev1 "mark" w = Returned tt w1
    /\ sp ev2 "stamp" w1 = Returned tt w2
    /\ general (logs w2)
       = general (logs w)
           ++ [{| ts := t;
                  data := JString
                            (stamp_result
                               {| name := "ins-s-to-e-measure"; entryType := Measure;
                                  startTime := clock (tick (performance (host w)));
                                  duration := Z.of_N (hd 0%N (tl (drift (performance (host w))))) |})
               |}].
Proof.
  intros Hsel Hnone.
  set (w1 := inspectElement sel (at_pointer ev1) (performance_mark "ins-mark" w)).
  assert (H1 : host w1 = host (performance_mark "ins-mark" w))
    by apply inspectElement_host.
  assert (Hsel1 : selected (this w1) = Some sel)
    by (apply inspectElement_selected; exact Hsel).
  assert (Hmark : latest_mark "ins-mark" (timeline (performance (host w1)))
                  = Some (clock (tick (performance (host w))))).
  { rewrite H1.
    change (timeline (performance (host (performance_mark "ins-mark" w))))
      with (timeline (performance (host w))
              ++ [{| name := "ins-mark"; entryType := Mark;
                     startTime := clock (tick (performance (host w))); duration := 0 |}]).
    rewrite latest_mark_snoc. reflexivity. }
  destruct (stamp_completes ev2 sel w1 _ Hsel1 Hmark) as (r & rest & Hr & Hsp).
  rewrite results_only_measure in Hr.
  - inversion Hr; subst r rest; clear Hr.
    exists w1. eexists. eexists.
    split; [unfold sp; rewrite Hsel, special_mark; reflexivity |].
    split; [exact Hsp |].
    unfold stamped. rewrite inspectElement_logs. simpl.
    unfold w1. rewrite !inspectElement_logs, !inspectElement_host. simpl.
    do 5 f_equal. unfold stamp_result. do 4 f_equal. f_equal. lia.
  - reflexivity.
  - rewrite results_unmarked. simpl.
    rewrite (results_of_host _ w1 (performance_mark "ins-mark" w) H1).
    rewrite results_unmarked. simpl. exact Hnone.
Qed.

Lemma stamp_measures_from_the_last_mark_witness :
  exists w1 w2 t,
    sp (Sample.click 1 2) "mark" Sample.marking = Returned tt w1
    /\ sp (Sample.click 3 4) "stamp" w1 = Returned tt w2
    /\ general (logs w2)
       = general (logs Sample.marking)
           ++ [{| ts := t;
                  data := JString
                            (stamp_result
                               {| name := "ins-s-to-e-measure"; entryType := Measure;
                                  startTime := clock (tick (performance (host Sample.marking)));
                                  duration :=
                                    Z.of_N (hd 0%N (tl (drift (performance (host Sample.marking)))))
                               |})
               |}].
Proof.
  apply (stamp_measures_from_the_last_mark (Sample.click 1 2) (Sample.click 3 4) 2%nat
           Sample.marking).
  - vm_compute. reflexivity.
  - vm_compute. reflexivity.
Defined.

(* ================================================================== *)
(** ** The computed-style dump *)
(* ================================================================== *)

Lemma style_text_from (acc : string) (l : list (string * string)) :
  fold_left (fun style kv => style +++ fst kv +++ ": " +++ snd kv +++ ";" +++ newline) l acc
  = acc +++ join (map style_line l).
Proof.
  revert acc. induction l as [| kv l IH]; intros acc; simpl.
  - induction acc as [| c acc IHa]; simpl; [reflexivity | rewrite <- IHa; reflexivity].
  - rewrite IH. fold (style_line kv). rewrite append_assoc. reflexivity.
Qed.

(** X18. The display tab lists the computed style one property a line, in the
    order the host gives them: every property of the computed style is to
    be read there with its value. *)
Theorem style_dump_follows_the_computed_style (i : string) (el : Element)
        (l : list (string * string)) :
  style_text l = join (map style_line l)
  /\ (forall kv, In kv l -> mentions (style_line kv) (display_view i el l)).
Proof.
  assert (Hj : style_text l = join (map style_line l))
    by (unfold style_text; rewrite style_text_from; reflexivity).
  split; [exact Hj |].
  intros kv Hkv. unfold display_view.
  do 9 apply mentions_right. unfold row.
  apply mentions_right, mentions_right, mentions_right, mentions_left.
  apply mentions_right, mentions_left. unfold textarea. do 8 apply mentions_right.
  apply mentions_left. rewrite Hj. apply join_mentions, in_map, Hkv.
Qed.

Lemma style_dump_follows_the_computed_style_witness :
  mentions (style_line ("display", "block")%string)
           (display_view "inspector-u" Sample.foo [("color", "red"); ("display", "block")]%string).
Proof.
  apply (proj2 (style_dump_follows_the_computed_style "inspector-u" Sample.foo
                  [("color", "red"); ("display", "block")]%string)).
  simpl. right. left. reflexivity.
Defined.

(* ================================================================== *)
(** ** The earlier revision and the later one *)
(* ================================================================== *)

(** X19. The wrappers of the earlier revision have no guard: every call is
    forwarded to its channel and logged, [undefined] included.  On a
    defined payload the two revisions do the same; on [undefined] the
    later one does nothing where the earlier one forwards and logs. *)
Theorem earlier_wrapper_has_no_guard (c : Channel) (v : JsValue) (w : World) :
  f (logs (Earlier.wrapper c v w)) = f (logs w) ++ [(c, v)]
  /\ (exists t, now w <= t
                /\ general (logs (Earlier.wrapper c v w))
                   = general (logs w) ++ [{| ts := t; data := v |}])
  /\ (v <> JUndefined -> wrapper c v w = Earlier.wrapper c v w)
  /\ (v = JUndefined -> wrapper c v w = w /\ Earlier.wrapper c v w <> w).
Proof.
  split; [reflexivity |]. split; [| split].
  - exists (clock (tick (performance (host w)))). split.
    + apply (tick_later (performance (host w))).
    + reflexivity.
  - intros Hv. apply wrapper_defined, is_undefined_false, Hv.
  - intros ->. split; [reflexivity |].
    intros H. apply (f_equal (fun w' => List.length (general (logs w')))) in H.
    unfold Earlier.wrapper in H. rewrite push_general, length_app in H. simpl in H. lia.
Qed.

Lemma earlier_wrapper_has_no_guard_witness :
  wrapper log (JNumber 1) Sample.inspecting = Earlier.wrapper log (JNumber 1) Sample.inspecting.
Proof.
  apply (proj1 (proj2 (proj2 (earlier_wrapper_has_no_guard log (JNumber 1) Sample.inspecting)))).
  discriminate.
Defined.

(** X20. [toggle] of the later revision is [toggle] of the earlier one followed
    by the side-mode switch; the earlier one never touches a side-mode
    attribute, and two calls of it after its constructor, on a page whose
    root has no [data-mode] or has [inspect], give back the world as it
    was. *)
Theorem toggle_adds_the_side_mode_switch :
  (forall w : World, toggle w = toggle_side_mode (Earlier.toggle w))
  /\ (forall w : World,
         side_mode (window (this (Earlier.toggle w))) = side_mode (window (this w))
         /\ inspector_side_mode (document (host (Earlier.toggle w)))
            = inspector_side_mode (document (host w)))
  /\ (forall (uuid : string) (l : Logs) (h : Host),
         data_mode (document h) = None \/ data_mode (document h) = Some "inspect"%string ->
         Earlier.toggle (Earlier.toggle (Earlier.construct uuid l h)) = Earlier.construct uuid l h).
Proof.
  split; [| split].
  - intros w. reflexivity.
  - intros w. split; reflexivity.
  - intros uuid l h Hm. destruct h as [p d ls ss gcs ev]. destruct d as [st rp dm ism ck].
    simpl in Hm. unfold Earlier.toggle, Earlier.construct; simpl.
    destruct Hm as [-> | ->]; reflexivity.
Qed.

Lemma toggle_adds_the_side_mode_switch_witness :
  Earlier.toggle (Earlier.toggle (Earlier.construct "u" {| general := []; f := [] |} Sample.page))
  = Earlier.construct "u" {| general := []; f := [] |} Sample.page.
Proof.
  apply (proj2 (proj2 toggle_adds_the_side_mode_switch)). left. reflexivity.
Defined.

Lemma earlier_inspectElement_frame (el : ElemRef) (position : Position) (w : World) :
  logs (Earlier.inspectElement el position w) = logs w
  /\ host (Earlier.inspectElement el position w) = host w
  /\ active (this (Earlier.inspectElement el position w)) = active (this w)
  /\ tab (this (Earlier.inspectElement el position w)) = tab (this w)
  /\ classList (window (this (Earlier.inspectElement el position w)))
     = classList (window (this w)).
Proof. unfold Earlier.inspectElement. destruct (negb _); repeat split. Qed.

(** X21. [sp] of the earlier revision acts on three tags.  Whatever the tag, it
    neither logs nor touches the clock or the timing buffer, and it throws
    nothing; a tag other than the three, the later tags [storage],
    [performance], [runjs], [mark] and [stamp] among them, leaves the tab
    as it is and only inspects the selected element again. *)
Theorem earlier_sp_knows_three_tags (ev : Event) (tag : string) (w : World) :
  logs (Earlier.sp ev tag w) = logs w
  /\ performance (host (Earlier.sp ev tag w)) = performance (host w)
  /\ (~ In tag ["sideMode"; "display"; "console"]%string ->
      tab (this (Earlier.sp ev tag w)) = tab (this w)
      /\ Earlier.sp ev tag w
         = match selected (this w) with
           | Some sel => Earlier.inspectElement sel (at_pointer ev) w
           | None => w
           end).
Proof.
  unfold Earlier.sp. split; [| split].
  - destruct (selected (this w)) as [sel |]; [| reflexivity].
    rewrite (proj1 (earlier_inspectElement_frame _ _ _)).
    repeat match goal with |- context [if ?b then _ else _] => destruct b end; reflexivity.
  - destruct (selected (this w)) as [sel |]; [| reflexivity].
    rewrite (proj1 (proj2 (earlier_inspectElement_frame _ _ _))).
    repeat match goal with |- context [if ?b then _ else _] => destruct b end; reflexivity.
  - intros Hn.
    repeat match goal with
           | |- context [String.eqb tag ?s] =>
               destruct (String.eqb_spec tag s) as [-> | _];
               [exfalso; apply Hn; simpl; tauto |]
           end.
    destruct (selected (this w)) as [sel |]; [| split; reflexivity].
    split; [| reflexivity].
    apply (proj1 (proj2 (proj2 (proj2 (earlier_inspectElement_frame _ _ _))))).
Qed.

Lemma earlier_sp_knows_three_tags_witness :
  tab (this (Earlier.sp (Sample.click 1 1) "stamp" Sample.inspecting)) = tab (this Sample.inspecting)
  /\ Earlier.sp (Sample.click 1 1) "stamp" Sample.inspecting
     = match selected (this Sample.inspecting) with
       | Some sel => Earlier.inspectElement sel (at_pointer (Sample.click 1 1)) Sample.inspecting
       | None => Sample.inspecting
       end.
Proof.
  apply (proj2 (proj2 (earlier_sp_knows_three_tags (Sample.click 1 1) "stamp" Sample.inspecting))).
  simpl. intros H. repeat (destruct H as [H | H]; [discriminate H |]). exact H.
Defined.
